(** * Unity warehouse adapter for EPyMARL: a shallow embedding

    Sources embedded here:
    - [src/epymarl/src/envs/unity_wrapper.py]  (class [UnityWarehouseEnv])
    - [src/epymarl/src/envs/warehouse_env.py]  (class [UnityWarehouse])
    - [src/epymarl/src/envs/__init__.py]       (the registry functions)

    The simulation (ML-Agents' [UnityEnvironment]) and numpy are external
    to the repository; they enter as interfaces ([UnityBackend],
    [PyFloatOps]) over which every definition is parametric. *)

From Stdlib Require Import ZArith List String Bool Lia QArith DecimalString.
From stdpp Require Import gmap strings list fin_maps.
Import ListNotations.

Local Open Scope string_scope.
Local Open Scope list_scope.
Local Open Scope Z_scope.

(** ** Python values, exceptions and the effect monad *)

(** Values that reach the constructors through [**kwargs] (they come from
    a YAML configuration). *)
Inductive PyVal : Type :=
| PyNone
| PyBool (b : bool)
| PyInt (z : Z)
| PyFloat (q : Q)
| PyStr (s : string).

(** Python truthiness, as used by [if env_path:] and [assert kwargs[...]]. *)
Definition truthy (v : PyVal) : bool :=
  match v with
  | PyNone => false
  | PyBool b => b
  | PyInt z => negb (z =? 0)
  | PyFloat q => negb (Qnum q =? 0)
  | PyStr s => negb (String.eqb s EmptyString)
  end.

Inductive PyExn : Type :=
| IndexError
| ValueError
| AssertionError (msg : string)
| UnityException (msg : string).

Inductive result (A : Type) : Type :=
| Ok (a : A)
| Raise (e : PyExn).
Arguments Ok {A} a.
Arguments Raise {A} e.

Definition is_ok {A} (r : result A) : bool :=
  match r with Ok _ => true | Raise _ => false end.

(** A method that mutates [self]: the object is returned in both
    outcomes, because a Python exception leaves earlier assignments in
    place. *)
Definition Eff (S A : Type) : Type := S -> result A * S.

Definition ret {S A} (a : A) : Eff S A := fun s => (Ok a, s).
Definition raise {S A} (e : PyExn) : Eff S A := fun s => (Raise e, s).
Definition bind {S A B} (c : Eff S A) (k : A -> Eff S B) : Eff S B :=
  fun s => match c s with
           | (Ok a, s') => k a s'
           | (Raise e, s') => (Raise e, s')
           end.
Definition get {S} : Eff S S := fun s => (Ok s, s).
Definition modify {S} (f : S -> S) : Eff S unit := fun s => (Ok tt, f s).
(** A query that does not touch the state (it may still raise). *)
Definition query {S A} (q : S -> result A) : Eff S A := fun s => (q s, s).

Notation "'let*' x ':=' c 'in' k" := (bind c (fun x => k))
  (at level 10, x pattern, c at level 100, k at level 200).

(** The error monad alone, for the pure queries. *)
Definition rbind {A B} (r : result A) (k : A -> result B) : result B :=
  match r with Ok a => k a | Raise e => Raise e end.

Notation "'let?' x ':=' r 'in' k" := (rbind r (fun x => k))
  (at level 10, x pattern, r at level 100, k at level 200).

(** [l[i]] with Python's index rules: negative indices count from the
    end, anything outside [-len, len) raises [IndexError]. *)
Definition py_index {A} (l : list A) (i : Z) : result A :=
  let n := Z.of_nat (length l) in
  let j := if i <? 0 then i + n else i in
  if (j <? 0) || (n <=? j) then Raise IndexError
  else match l !! Z.to_nat j with
       | Some x => Ok x
       | None => Raise IndexError
       end.

(** ** numpy and float primitives *)

Class PyFloatOps (F : Type) : Type := {
  f_zero : F;                 (* the literal 0.0 *)
  f_add : F -> F -> F;        (* float + *)
  np_sum : list F -> F;       (* np.sum over a 1-D array *)
}.

(** The two facts about these primitives that the reward computation
    relies on: the sum of an empty array is 0.0, and adding 0.0 on the
    right changes nothing. *)
Class PyFloatLaws (F : Type) {FO : PyFloatOps F} : Prop := {
  np_sum_nil : np_sum [] = f_zero;
  f_add_0_r : forall x, f_add x f_zero = x;
}.

Section Numpy.
Context {F : Type} {FO : PyFloatOps F}.

(** [np.zeros(n)] *)
Definition np_zeros (n : nat) : list F := replicate n f_zero.

(** [np.concatenate(arrays)] on 1-D arrays; numpy raises [ValueError]
    on an empty sequence. *)
Definition np_concatenate (arrays : list (list F)) : result (list F) :=
  match arrays with
  | [] => Raise ValueError
  | _ => Ok (concat arrays)
  end.
End Numpy.

(** ** The ML-Agents interface *)

Record ObservationSpec : Type := { shape : list nat }.
Record ActionSpec : Type :=
  { continuous_size : nat; discrete_branches : list nat }.
Record BehaviorSpec : Type :=
  { observation_specs : list ObservationSpec; action_spec : ActionSpec }.

(** [DecisionSteps]: one 2-D array per observation spec (a row per
    agent), a reward per agent, and the agent ids. *)
Record DecisionSteps (F : Type) : Type := {
  ds_obs : list (list (list F));
  ds_reward : list F;
  ds_agent_id : list Z;
}.
Arguments ds_obs {F} _.
Arguments ds_reward {F} _.
Arguments ds_agent_id {F} _.

Record TerminalSteps (F : Type) : Type := {
  ts_obs : list (list (list F));
  ts_reward : list F;
  ts_interrupted : list bool;
  ts_agent_id : list Z;
}.
Arguments ts_obs {F} _.
Arguments ts_reward {F} _.
Arguments ts_interrupted {F} _.
Arguments ts_agent_id {F} _.

(** [len(decision_steps)] and [len(terminal_steps)] are the lengths of
    the agent-id arrays. *)
Definition ds_len {F} (d : DecisionSteps F) : nat := length (ds_agent_id d).
Definition ts_len {F} (t : TerminalSteps F) : nat := length (ts_agent_id t).

(** Keyword arguments of [UnityEnvironment(...)]. *)
Record LaunchArgs : Type := {
  file_name : PyVal;
  la_worker_id : PyVal;
  la_no_graphics : PyVal;
  timeout_wait : PyVal;
}.

(** The simulation connection.  State-changing calls return the new
    connection state and, when they raise, the message. *)
Class UnityBackend (F : Type) : Type := {
  Sim : Type;
  launch : LaunchArgs -> string + Sim;
  set_configuration_parameters : PyVal -> Sim -> Sim;
  env_reset : Sim -> option string * Sim;
  env_step : Sim -> option string * Sim;
  behavior_specs : Sim -> list (string * BehaviorSpec);
  get_steps : Sim -> string -> string + (DecisionSteps F * TerminalSteps F);
  set_actions : string -> list (list Z) -> Sim -> option string * Sim;
  env_close : Sim -> option string * Sim;
}.

Definition lift_fault {A} (r : string + A) : result A :=
  match r with
  | inl msg => Raise (UnityException msg)
  | inr a => Ok a
  end.

(** [[f(i) for i in range(n)]] where [f] may raise. *)
Fixpoint comprehension {A B} (f : A -> result B) (l : list A)
  : result (list B) :=
  match l with
  | [] => Ok []
  | x :: l' =>
      let? y := f x in
      let? ys := comprehension f l' in
      Ok (y :: ys)
  end.

(** ** Standard output *)

Definition Stdout : Type := list string.

Definition print (line : string) : Eff Stdout unit :=
  modify (fun out => out ++ [line]).

(** [f"{n}"] for a non-negative int. *)
Definition str_of_nat (n : nat) : string :=
  NilZero.string_of_uint (Nat.to_uint n).

(** ** [unity_wrapper.py]: class [UnityWarehouseEnv] *)

Section Adapter.
Context {F : Type} {FO : PyFloatOps F} {UB : UnityBackend F}.

Record UnityWarehouseEnv : Type := {
  unity_env : Sim;
  behavior_name : string;
  spec : BehaviorSpec;
  n_agents : nat;
  n_actions : nat;
  obs_shape : nat;
  episode_limit : Z;
  _episode_count : Z;
  _episode_steps : Z;
  _total_steps : Z;
}.

Definition set_unity_env (u : Sim) (self : UnityWarehouseEnv) :=
  {| unity_env := u; behavior_name := behavior_name self;
     spec := spec self; n_agents := n_agents self;
     n_actions := n_actions self; obs_shape := obs_shape self;
     episode_limit := episode_limit self;
     _episode_count := _episode_count self;
     _episode_steps := _episode_steps self;
     _total_steps := _total_steps self |}.

Definition set_episode_count (v : Z) (self : UnityWarehouseEnv) :=
  {| unity_env := unity_env self; behavior_name := behavior_name self;
     spec := spec self; n_agents := n_agents self;
     n_actions := n_actions self; obs_shape := obs_shape self;
     episode_limit := episode_limit self;
     _episode_count := v;
     _episode_steps := _episode_steps self;
     _total_steps := _total_steps self |}.

Definition set_episode_steps (v : Z) (self : UnityWarehouseEnv) :=
  {| unity_env := unity_env self; behavior_name := behavior_name self;
     spec := spec self; n_agents := n_agents self;
     n_actions := n_actions self; obs_shape := obs_shape self;
     episode_limit := episode_limit self;
     _episode_count := _episode_count self;
     _episode_steps := v;
     _total_steps := _total_steps self |}.

Definition set_total_steps (v : Z) (self : UnityWarehouseEnv) :=
  {| unity_env := unity_env self; behavior_name := behavior_name self;
     spec := spec self; n_agents := n_agents self;
     n_actions := n_actions self; obs_shape := obs_shape self;
     episode_limit := episode_limit self;
     _episode_count := _episode_count self;
     _episode_steps := _episode_steps self;
     _total_steps := v |}.

(** A call on the connection made while the object is being built. *)
Definition call {S} (c : Sim -> option string * Sim) (u : Sim) : Eff S Sim :=
  fun s => match c u with
           | (None, u') => (Ok u', s)
           | (Some msg, _) => (Raise (UnityException msg), s)
           end.

(** [self.unity_env.<c>()] *)
Definition on_unity_env (c : Sim -> option string * Sim)
  : Eff UnityWarehouseEnv unit :=
  fun self => match c (unity_env self) with
              | (None, u') => (Ok tt, set_unity_env u' self)
              | (Some msg, u') =>
                  (Raise (UnityException msg), set_unity_env u' self)
              end.

(** [self.unity_env.get_steps(self.behavior_name)] *)
Definition self_get_steps (self : UnityWarehouseEnv)
  : result (DecisionSteps F * TerminalSteps F) :=
  lift_fault (get_steps (unity_env self) (behavior_name self)).

Definition no_agents_warning : string :=
  "Warning: No agents found in first step, using default n_agents=4".

(** [UnityWarehouseEnv.__init__], lines 26-55: open the connection,
    set the time scale, reset, read the behaviour, tick once and read
    the decision steps.  [list(behavior_specs)[0]] followed by
    [behavior_specs[name]] reads the first entry of the mapping. *)
Definition connect (env_path no_graphics time_scale worker_id : PyVal)
  : Eff Stdout (Sim * string * BehaviorSpec * DecisionSteps F) :=
  let args :=
    if truthy env_path then
      {| file_name := env_path; la_worker_id := worker_id;
         la_no_graphics := no_graphics; timeout_wait := PyInt 60 |}
    else
      {| file_name := PyNone; la_worker_id := worker_id;
         la_no_graphics := no_graphics; timeout_wait := PyInt 300 |} in
  let* u := query (fun _ => lift_fault (launch args)) in
  let u := set_configuration_parameters time_scale u in
  let* u := call env_reset u in
  let* (name, bspec) := query (fun _ => py_index (behavior_specs u) 0) in
  let* u := call env_step u in
  let* (decision_steps, _) := query (fun _ => lift_fault (get_steps u name)) in
  ret (u, name, bspec, decision_steps).

(** Lines 56-61: the agent count, with its fallback. *)
Definition count_agents (decision_steps : DecisionSteps F)
  : Eff Stdout nat :=
  let n := ds_len decision_steps in
  if Nat.eqb n 0 then
    let* _ := print no_agents_warning in
    ret 4%nat
  else ret n.

(** Lines 63-64: [n_actions] and [obs_shape] from the behaviour spec. *)
Definition read_spec (bspec : BehaviorSpec) : result (nat * nat) :=
  let? nact := py_index (discrete_branches (action_spec bspec)) 0 in
  let? oshape :=
    if Nat.ltb 0 (length (observation_specs bspec)) then
      let? o := py_index (observation_specs bspec) 0 in
      py_index (shape o) 0
    else Ok 47%nat in
  Ok (nact, oshape).

(** [UnityWarehouseEnv.__init__] (lines 18-74) *)
Definition UnityWarehouseEnv__init__
    (env_path no_graphics time_scale worker_id : PyVal)
  : Eff Stdout UnityWarehouseEnv :=
  let* (u, name, bspec, decision_steps) :=
    connect env_path no_graphics time_scale worker_id in
  let* n := count_agents decision_steps in
  let* (nact, oshape) := query (fun _ => read_spec bspec) in
  let* _ := print "Unity Warehouse Environment initialized:" in
  let* _ := print ("  Agents: " ++ str_of_nat n) in
  let* _ := print ("  Actions: " ++ str_of_nat nact) in
  let* _ := print ("  Observation shape: " ++ str_of_nat oshape) in
  ret {| unity_env := u; behavior_name := name; spec := bspec;
         n_agents := n; n_actions := nact; obs_shape := oshape;
         episode_limit := 1000; _episode_count := 0;
         _episode_steps := 0; _total_steps := 0 |}.

(** [get_obs] (lines 138-152) *)
Definition get_obs (self : UnityWarehouseEnv) : result (list (list F)) :=
  let? (decision_steps, terminal_steps) := self_get_steps self in
  if Nat.ltb 0 (ds_len decision_steps) then
    let? obs := py_index (ds_obs decision_steps) 0 in
    comprehension (fun i => py_index obs (Z.of_nat i)) (seq 0 (length obs))
  else
    Ok (map (fun _ => np_zeros (obs_shape self)) (seq 0 (n_agents self))).

(** [get_obs_agent] (lines 154-159) *)
Definition get_obs_agent (agent_id : Z) (self : UnityWarehouseEnv)
  : result (list F) :=
  let? obs_list := get_obs self in
  if agent_id <? Z.of_nat (length obs_list) then py_index obs_list agent_id
  else Ok (np_zeros (obs_shape self)).

Definition get_obs_size (self : UnityWarehouseEnv) : nat := obs_shape self.

(** [get_state] (lines 165-174) *)
Definition get_state (self : UnityWarehouseEnv) : result (list F) :=
  let? obs := get_obs self in
  np_concatenate obs.

Definition get_state_size (self : UnityWarehouseEnv) : nat :=
  (obs_shape self * n_agents self)%nat.

Definition get_avail_actions (self : UnityWarehouseEnv) : list (list Z) :=
  map (fun _ => replicate (n_actions self) 1) (seq 0 (n_agents self)).

Definition get_avail_agent_actions (agent_id : Z) (self : UnityWarehouseEnv)
  : list Z := replicate (n_actions self) 1.

Definition get_total_actions (self : UnityWarehouseEnv) : nat :=
  n_actions self.

(** The dict built by [get_env_info]; its five keys are fixed. *)
Record EnvInfo : Type := {
  state_shape : nat;
  info_obs_shape : nat;
  info_n_actions : nat;
  info_n_agents : nat;
  info_episode_limit : Z;
}.

Definition get_env_info (self : UnityWarehouseEnv) : EnvInfo :=
  {| state_shape := get_state_size self;
     info_obs_shape := get_obs_size self;
     info_n_actions := get_total_actions self;
     info_n_agents := n_agents self;
     info_episode_limit := episode_limit self |}.

(** [reset] (lines 76-85) *)
Definition reset : Eff UnityWarehouseEnv (list (list F) * list F) :=
  let* _ := on_unity_env env_reset in
  let* _ := modify (set_episode_steps 0) in
  let* _ := modify (fun self =>
                      set_episode_count (_episode_count self + 1) self) in
  let* _ := query self_get_steps in
  let* obs := query get_obs in
  let* state := query get_state in
  ret (obs, state).

(** The [info] dict returned by [step]. *)
Record StepInfo : Type := { episode_steps : Z; total_steps : Z }.

Record StepReturn : Type := {
  sr_obs : list (list F);
  sr_reward : F;
  sr_terminated : bool;
  sr_truncated : bool;
  sr_info : StepInfo;
}.

(** The team reward of lines 111-116. *)
Definition team_reward (decision_steps : DecisionSteps F)
    (terminal_steps : TerminalSteps F) : F :=
  let reward := f_zero in
  let reward :=
    if Nat.ltb 0 (ds_len decision_steps)
    then np_sum (ds_reward decision_steps) else reward in
  let reward :=
    if Nat.ltb 0 (ts_len terminal_steps)
    then f_add reward (np_sum (ts_reward terminal_steps)) else reward in
  reward.

(** [step] (lines 87-136) *)
Definition step (actions : list Z) : Eff UnityWarehouseEnv StepReturn :=
  let action_tuple := map (fun a => [a]) actions in
  let* _ := query self_get_steps in
  let* self := get in
  let* _ := on_unity_env (set_actions (behavior_name self) action_tuple) in
  let* _ := on_unity_env env_step in
  let* (decision_steps, terminal_steps) := query self_get_steps in
  let reward := team_reward decision_steps terminal_steps in
  let* _ := modify (fun self =>
                      set_episode_steps (_episode_steps self + 1) self) in
  let terminated := Nat.ltb 0 (ts_len terminal_steps) in
  let* self := get in
  let truncated :=
    (episode_limit self <=? _episode_steps self) && negb terminated in
  let* _ := modify (fun self =>
                      set_total_steps (_total_steps self + 1) self) in
  let* obs := query get_obs in
  let* self := get in
  let info := {| episode_steps := _episode_steps self;
                 total_steps := _total_steps self |} in
  ret {| sr_obs := obs; sr_reward := reward; sr_terminated := terminated;
         sr_truncated := truncated; sr_info := info |}.

Definition get_stats (self : UnityWarehouseEnv) : list (string * Z) := [].

Definition close : Eff UnityWarehouseEnv unit := on_unity_env env_close.

(** [seed] sets numpy's global generator, which no method here reads;
    [render] and [save_replay] are [pass]. *)
Definition seed (s : Z) : Eff UnityWarehouseEnv unit := ret tt.
Definition render : Eff UnityWarehouseEnv unit := ret tt.
Definition save_replay : Eff UnityWarehouseEnv unit := ret tt.

(** *** Traces of method calls *)

Inductive AdapterOp : Type :=
| OpReset
| OpStep (actions : list Z)
| OpGetObs
| OpGetObsAgent (agent_id : Z)
| OpGetState
| OpGetAvailActions
| OpGetEnvInfo
| OpClose
| OpSeed (s : Z)
| OpRender
| OpSaveReplay.

(** The object after one call, whether the call returned or raised. *)
Definition exec (op : AdapterOp) (self : UnityWarehouseEnv)
  : UnityWarehouseEnv :=
  match op with
  | OpReset => snd (reset self)
  | OpStep actions => snd (step actions self)
  | OpClose => snd (close self)
  | OpSeed s => snd (seed s self)
  | OpRender => snd (render self)
  | OpSaveReplay => snd (save_replay self)
  | OpGetObs | OpGetObsAgent _ | OpGetState | OpGetAvailActions
  | OpGetEnvInfo => self
  end.

Definition run (ops : list AdapterOp) (self : UnityWarehouseEnv)
  : UnityWarehouseEnv :=
  fold_left (fun s op => exec op s) ops self.

(** The adapter objects a program can hold: built by the constructor,
    then used through any sequence of calls. *)
Inductive reachable : UnityWarehouseEnv -> Prop :=
| reach_init env_path no_graphics time_scale worker_id out self out' :
    UnityWarehouseEnv__init__ env_path no_graphics time_scale worker_id out
    = (Ok self, out') ->
    reachable self
| reach_exec op self :
    reachable self -> reachable (exec op self).

(** Every [step] of a sequence of action batches returns. *)
Fixpoint steps_return (batches : list (list Z)) (self : UnityWarehouseEnv)
  : bool :=
  match batches with
  | [] => true
  | actions :: rest =>
      is_ok (fst (step actions self))
      && steps_return rest (snd (step actions self))
  end.

(** *** Shape of the data the simulation hands over *)

(** One reward per agent of the set. *)
Definition ds_rewards_aligned (d : DecisionSteps F) : bool :=
  Nat.eqb (length (ds_reward d)) (ds_len d).
Definition ts_rewards_aligned (t : TerminalSteps F) : bool :=
  Nat.eqb (length (ts_reward t)) (ts_len t).

(** The first observation array has one row per agent of the set, each
    of the given width. *)
Definition obs_conform (width : nat) (d : DecisionSteps F) : bool :=
  match ds_obs d with
  | [] => false
  | arr :: _ =>
      Nat.eqb (length arr) (ds_len d)
      && forallb (fun row => Nat.eqb (length row) width) arr
  end.

End Adapter.

(** ** [warehouse_env.py]: class [UnityWarehouse] *)

(** [kwargs.get(key, default)] *)
Definition kwargs_get (kwargs : gmap string PyVal) (key : string)
    (dflt : PyVal) : PyVal :=
  default dflt (kwargs !! key).

Section Facade.
Context {F : Type} {FO : PyFloatOps F} {UB : UnityBackend F}.

Record UnityWarehouse : Type := {
  env : UnityWarehouseEnv;
  _env_info : EnvInfo;
  fac_n_agents : nat;
  fac_n_actions : nat;
  fac_episode_limit : Z;
}.

Definition set_env (e : UnityWarehouseEnv) (self : UnityWarehouse) :=
  {| env := e; _env_info := _env_info self;
     fac_n_agents := fac_n_agents self;
     fac_n_actions := fac_n_actions self;
     fac_episode_limit := fac_episode_limit self |}.

(** [self.env.<method>(...)] for a method that mutates the adapter. *)
Definition on_env {A} (c : Eff UnityWarehouseEnv A) : Eff UnityWarehouse A :=
  fun self => let (r, e) := c (env self) in (r, set_env e self).

(** [UnityWarehouse.__init__] (lines 16-35) *)
Definition UnityWarehouse__init__ (kwargs : gmap string PyVal)
  : Eff Stdout UnityWarehouse :=
  let env_path := kwargs_get kwargs "env_path" PyNone in
  let no_graphics := kwargs_get kwargs "no_graphics" (PyBool false) in
  let time_scale := kwargs_get kwargs "time_scale" (PyFloat (20 # 1)) in
  let worker_id := kwargs_get kwargs "worker_id" (PyInt 0) in
  let* e :=
    UnityWarehouseEnv__init__ env_path no_graphics time_scale worker_id in
  let info := get_env_info e in
  ret {| env := e; _env_info := info;
         fac_n_agents := info_n_agents info;
         fac_n_actions := info_n_actions info;
         fac_episode_limit := info_episode_limit info |}.

Definition fac_step (actions : list Z) : Eff UnityWarehouse StepReturn :=
  on_env (step actions).

Definition fac_reset : Eff UnityWarehouse (list (list F) * list F) :=
  on_env reset.

Definition fac_get_obs (self : UnityWarehouse) := get_obs (env self).
Definition fac_get_obs_agent (agent_id : Z) (self : UnityWarehouse) :=
  get_obs_agent agent_id (env self).
Definition fac_get_obs_size (self : UnityWarehouse) := get_obs_size (env self).
Definition fac_get_state (self : UnityWarehouse) := get_state (env self).
Definition fac_get_state_size (self : UnityWarehouse) :=
  get_state_size (env self).
Definition fac_get_avail_actions (self : UnityWarehouse) :=
  get_avail_actions (env self).
Definition fac_get_total_actions (self : UnityWarehouse) :=
  get_total_actions (env self).
Definition fac_get_avail_agent_actions (agent_id : Z) (self : UnityWarehouse) :=
  get_avail_agent_actions agent_id (env self).
Definition fac_get_stats (self : UnityWarehouse) := get_stats (env self).
Definition fac_render : Eff UnityWarehouse unit := on_env render.
Definition fac_close : Eff UnityWarehouse unit := on_env close.
Definition fac_seed (s : Z) : Eff UnityWarehouse unit := on_env (seed s).
Definition fac_save_replay : Eff UnityWarehouse unit := on_env save_replay.

(** [get_env_info] (lines 95-97): the stored dict, not a fresh one. *)
Definition fac_get_env_info (self : UnityWarehouse) : EnvInfo :=
  _env_info self.

Inductive FacadeOp : Type :=
| FReset
| FStep (actions : list Z).

Definition fac_exec (op : FacadeOp) (self : UnityWarehouse)
  : UnityWarehouse :=
  match op with
  | FReset => snd (fac_reset self)
  | FStep actions => snd (fac_step actions self)
  end.

Definition fac_run (ops : list FacadeOp) (self : UnityWarehouse)
  : UnityWarehouse :=
  fold_left (fun s op => fac_exec op s) ops self.

(** ** [__init__.py]: the registry functions *)

(** [__check_and_prepare_smac_kwargs] (lines 24-32), used by the SMAC
    entries of the registry only. *)
Definition __check_and_prepare_smac_kwargs (kwargs : gmap string PyVal)
  : result (gmap string PyVal) :=
  match kwargs !! "common_reward", kwargs !! "reward_scalarisation" with
  | Some common_reward, Some _ =>
      if truthy common_reward then
        let kwargs := delete "common_reward" kwargs in
        let kwargs := delete "reward_scalarisation" kwargs in
        match kwargs !! "map_name" with
        | Some _ => Ok kwargs
        | None =>
            Raise (AssertionError
                     "Please specify the map_name in the env_args")
        end
      else
        Raise (AssertionError
                 "SMAC only supports common reward. Please set `common_reward=True` or choose a different environment that supports general sum rewards.")
  | _, _ => Raise (AssertionError "")
  end.

(** [unity_warehouse_fn] (lines 78-79), stored under the key
    ["unity_warehouse"] of [REGISTRY] (line 82). *)
Definition unity_warehouse_fn (kwargs : gmap string PyVal)
  : Eff Stdout UnityWarehouse :=
  UnityWarehouse__init__ kwargs.

End Facade.

(** ** [__init__.py]: the other registry entries

    The SMAC, SMAClite and Gymma wrapper classes live in files that are
    not part of these sources; their constructors enter as parameters.
    [MultiAgentEnv] is the interface every entry of the registry
    returns, and [upcast] views a [UnityWarehouse] as one. *)

Section Registry.
Context {F : Type} {FO : PyFloatOps F} {UB : UnityBackend F}.
Context {MultiAgentEnv : Type}.
Variable upcast : UnityWarehouse -> MultiAgentEnv.

Definition EnvFn : Type := gmap string PyVal -> Eff Stdout MultiAgentEnv.

(** [smaclite_fn] (lines 35-37) *)
Definition smaclite_fn (SMACliteWrapper : EnvFn) : EnvFn :=
  fun kwargs =>
    let* kwargs := query (fun _ => __check_and_prepare_smac_kwargs kwargs) in
    SMACliteWrapper kwargs.

(** [gymma_fn] (lines 40-42) *)
Definition gymma_fn (GymmaWrapper : EnvFn) : EnvFn :=
  fun kwargs =>
    match kwargs !! "common_reward", kwargs !! "reward_scalarisation" with
    | Some _, Some _ => GymmaWrapper kwargs
    | _, _ => raise (AssertionError "")
    end.

(** [smac_fn] and [smacv2_fn], the closures of lines 57-59 and 67-69. *)
Definition smac_fn (SMACWrapper : EnvFn) : EnvFn :=
  fun kwargs =>
    let* kwargs := query (fun _ => __check_and_prepare_smac_kwargs kwargs) in
    SMACWrapper kwargs.

Definition smacv2_fn (SMACv2Wrapper : EnvFn) : EnvFn :=
  fun kwargs =>
    let* kwargs := query (fun _ => __check_and_prepare_smac_kwargs kwargs) in
    SMACv2Wrapper kwargs.

(** [unity_warehouse_fn] as an entry of the registry. *)
Definition unity_warehouse_entry : EnvFn :=
  fun kwargs =>
    let* w := unity_warehouse_fn kwargs in
    ret (upcast w).

(** [REGISTRY] as the module leaves it once imported (lines 45-49 and
    82).  An optional wrapper is [None] when its import failed. *)
Definition REGISTRY (SMACliteWrapper GymmaWrapper : option EnvFn)
  : gmap string EnvFn :=
  let registry : gmap string EnvFn := ∅ in
  let registry :=
    match SMACliteWrapper with
    | Some w => <["smaclite" := smaclite_fn w]> registry
    | None => registry
    end in
  let registry :=
    match GymmaWrapper with
    | Some w => <["gymma" := gymma_fn w]> registry
    | None => registry
    end in
  <["unity_warehouse" := unity_warehouse_entry]> registry.

(** [register_smac] and [register_smacv2] (lines 54-71), given the
    wrapper class their import delivers. *)
Definition register_smac (SMACWrapper : EnvFn)
    (registry : gmap string EnvFn) : gmap string EnvFn :=
  <["sc2" := smac_fn SMACWrapper]> registry.

Definition register_smacv2 (SMACv2Wrapper : EnvFn)
    (registry : gmap string EnvFn) : gmap string EnvFn :=
  <["sc2v2" := smacv2_fn SMACv2Wrapper]> registry.

End Registry.

(** ** [unity_wrapper.py]: the self-test under [__main__] (lines 234-260) *)

(** The line feed that starts some of the printed texts. *)
Definition nl : string := String (Ascii.ascii_of_nat 10) EmptyString.

(** [f"{z}"] for an int. *)
Definition str_of_Z (z : Z) : string := NilZero.string_of_int (Z.to_int z).

(** [a, b, c = t]: a tuple of any other length raises [ValueError]. *)
Definition unpack3 {A} (t : list A) : result (A * A * A) :=
  match t with
  | [a; b; c] => Ok (a, b, c)
  | _ => Raise ValueError
  end.

(** [[c() for _ in range(n)]] for a call with effects. *)
Fixpoint eff_repeat {S A} (n : nat) (c : Eff S A) : Eff S (list A) :=
  match n with
  | O => ret []
  | Datatypes.S n' =>
      let* x := c in
      let* xs := eff_repeat n' c in
      ret (x :: xs)
  end.

(** What the script can observe: the printed texts and how many numbers
    numpy's global generator has handed out. *)
Record TestWorld : Type := { tw_stdout : Stdout; tw_drawn : nat }.

Definition tprint (text : string) : Eff TestWorld unit :=
  modify (fun w => {| tw_stdout := tw_stdout w ++ [text];
                      tw_drawn := tw_drawn w |}).

(** A call that only prints. *)
Definition on_stdout {A} (c : Eff Stdout A) : Eff TestWorld A :=
  fun w => let (r, out) := c (tw_stdout w) in
           (r, {| tw_stdout := out; tw_drawn := tw_drawn w |}).

Section SelfTest.
Context {F : Type} {FO : PyFloatOps F} {UB : UnityBackend F}.

(** The raw numbers numpy's global generator produces, in order. *)
Variable raw_draw : nat -> Z.

(** The five items of the tuple [step] returns. *)
Inductive StepItem : Type :=
| ItemObs (obs : list (list F))
| ItemReward (reward : F)
| ItemFlag (flag : bool)
| ItemInfo (info : StepInfo).

Definition step_tuple (r : StepReturn) : list StepItem :=
  [ItemObs (sr_obs r); ItemReward (sr_reward r); ItemFlag (sr_terminated r);
   ItemFlag (sr_truncated r); ItemInfo (sr_info r)].

(** [f"{x:.3f}"], [f"{x}"] and the truth value of such an item. *)
Variable format_3f : StepItem -> result string.
Variable str_item : StepItem -> string.
Variable item_truthy : StepItem -> bool.

(** [np.random.randint(low, high)]: [ValueError] on an empty range. *)
Definition np_random_randint (low high : Z) : Eff TestWorld Z :=
  fun w =>
    if high <=? low then (Raise ValueError, w)
    else (Ok (low + raw_draw (tw_drawn w) mod (high - low)),
          {| tw_stdout := tw_stdout w; tw_drawn := S (tw_drawn w) |}).

(** A method call on the local variable [env]. *)
Definition on_local {A} (env : UnityWarehouseEnv)
    (c : Eff UnityWarehouseEnv A) : Eff TestWorld (A * UnityWarehouseEnv) :=
  fun w => match c env with
           | (Ok a, env') => (Ok (a, env'), w)
           | (Raise e, _) => (Raise e, w)
           end.

(** [env_info.items()], in insertion order, values already formatted. *)
Definition env_info_items (info : EnvInfo) : list (string * string) :=
  [("state_shape", str_of_nat (state_shape info));
   ("obs_shape", str_of_nat (info_obs_shape info));
   ("n_actions", str_of_nat (info_n_actions info));
   ("n_agents", str_of_nat (info_n_agents info));
   ("episode_limit", str_of_Z (info_episode_limit info))].

Fixpoint print_items (items : list (string * string)) : Eff TestWorld unit :=
  match items with
  | [] => ret tt
  | (key, value) :: rest =>
      let* _ := tprint ("  " ++ key ++ ": " ++ value) in
      print_items rest
  end.

(** The [for step in range(10)] loop (lines 248-257). *)
Fixpoint test_loop (steps : list nat) (env : UnityWarehouseEnv)
  : Eff TestWorld UnityWarehouseEnv :=
  match steps with
  | [] => ret env
  | k :: rest =>
      let* actions :=
        eff_repeat (n_agents env)
          (np_random_randint 0 (Z.of_nat (n_actions env))) in
      let* (r, env) := on_local env (step actions) in
      let* (reward, terminated, info) :=
        query (fun _ => unpack3 (step_tuple r)) in
      let* shown := query (fun _ => format_3f reward) in
      let* _ := tprint ("Step " ++ str_of_nat k ++ ": Reward=" ++ shown
                        ++ ", Terminated=" ++ str_item terminated) in
      if item_truthy terminated then
        let* _ := tprint "Episode ended" in
        ret env
      else test_loop rest env
  end.

(** The script itself. *)
Definition self_test : Eff TestWorld unit :=
  let* _ := tprint "Testing Unity Warehouse Environment Wrapper..." in
  let* env :=
    on_stdout (UnityWarehouseEnv__init__
                 PyNone (PyBool false) (PyFloat (20 # 1)) (PyInt 0)) in
  let env_info := get_env_info env in
  let* _ := tprint (nl ++ "Environment Info:") in
  let* _ := print_items (env_info_items env_info) in
  let* _ := tprint (nl ++ "Running test episode...") in
  let* (_, env) := on_local env reset in
  let* env := test_loop (seq 0 10) env in
  let* (_, env) := on_local env close in
  tprint (nl ++ "Test complete!").

End SelfTest.

(** ** A scripted simulation, for concrete runs

    Rewards and observations are integers here; the connection state is
    the list of frames still to come, the head being the current one.
    [step()] moves to the next frame, [reset()] stays on the current one. *)

#[local] Instance Z_float_ops : PyFloatOps Z :=
  {| f_zero := 0; f_add := Z.add; np_sum := fun l => fold_right Z.add 0 l |}.

Definition Frame : Type := DecisionSteps Z * TerminalSteps Z.

Definition no_decisions : DecisionSteps Z :=
  {| ds_obs := [[]]; ds_reward := []; ds_agent_id := [] |}.
Definition no_terminals : TerminalSteps Z :=
  {| ts_obs := [[]]; ts_reward := []; ts_interrupted := [];
     ts_agent_id := [] |}.

Definition current_frame (u : list Frame) : Frame :=
  match u with
  | [] => (no_decisions, no_terminals)
  | fr :: _ => fr
  end.

Definition scripted (bspecs : list (string * BehaviorSpec))
    (script : list Frame) : UnityBackend Z :=
  {| Sim := list Frame;
     launch := fun _ => inr script;
     set_configuration_parameters := fun _ u => u;
     env_reset := fun u => (None, u);
     env_step := fun u => (None, tail u);
     behavior_specs := fun _ => bspecs;
     get_steps := fun u _ => inr (current_frame u);
     set_actions := fun _ _ u => (None, u);
     env_close := fun u => (None, u) |}.

Definition warehouse_spec : BehaviorSpec :=
  {| observation_specs := [ {| shape := [3%nat] |} ];
     action_spec := {| continuous_size := 0; discrete_branches := [6%nat] |} |}.

Definition warehouse_behaviors : list (string * BehaviorSpec) :=
  [("WarehouseAgent?team=0", warehouse_spec)].

(** Four agents awaiting a decision, none terminal. *)
Definition frame_four : Frame :=
  ({| ds_obs := [[[1; 0; 0]; [0; 1; 0]; [0; 0; 1]; [1; 1; 1]]];
      ds_reward := [1; 2; 3; 4]; ds_agent_id := [0; 1; 2; 3] |},
   no_terminals).

(** Two agents awaiting a decision, none terminal. *)
Definition frame_two : Frame :=
  ({| ds_obs := [[[5; 5; 5]; [6; 6; 6]]];
      ds_reward := [10; 20]; ds_agent_id := [0; 1] |},
   no_terminals).

(** Three agents still active and one that became terminal. *)
Definition frame_done : Frame :=
  ({| ds_obs := [[[1; 0; 0]; [0; 1; 0]; [0; 0; 1]]];
      ds_reward := [1; 2; 3]; ds_agent_id := [0; 1; 2] |},
   {| ts_obs := [[[9; 9; 9]]]; ts_reward := [100];
      ts_interrupted := [false]; ts_agent_id := [3] |}).

Definition frame_none : Frame := (no_decisions, no_terminals).

(** The adapter object as the constructor leaves it on the scripted
    warehouse started from [script], with [frames] still to come. *)
Definition warehouse_env (script frames : list Frame)
  : UnityWarehouseEnv (UB := scripted warehouse_behaviors script) :=
  {| unity_env := frames : @Sim _ (scripted warehouse_behaviors script);
     behavior_name := "WarehouseAgent?team=0";
     spec := warehouse_spec;
     n_agents := 4; n_actions := 6; obs_shape := 3;
     episode_limit := 1000; _episode_count := 0;
     _episode_steps := 0; _total_steps := 0 |}.

(** Four agents at start-up; one of them ends its episode on the first
    tick of the episode. *)
Definition script_done : list Frame :=
  [frame_none; frame_four; frame_done].

(** Four agents at start-up; only two ask for a decision on the first
    tick of the episode. *)
Definition script_two : list Frame :=
  [frame_none; frame_four; frame_two].

(** No agent at start-up. *)
Definition script_late : list Frame :=
  [frame_none; frame_none; frame_four].

(** The adapter just built on [script_done]. *)
Definition env_done
  : UnityWarehouseEnv (UB := scripted warehouse_behaviors script_done) :=
  warehouse_env script_done [frame_four; frame_done].

(** The adapter built on [script_two], after one [step]. *)
Definition env_two_tick
  : UnityWarehouseEnv (UB := scripted warehouse_behaviors script_two) :=
  exec (OpStep [0; 1; 2; 3])
    (warehouse_env script_two [frame_four; frame_two]).

(** The adapter built on [script_done], after one [step]. *)
Definition env_done_tick
  : UnityWarehouseEnv (UB := scripted warehouse_behaviors script_done) :=
  exec (OpStep [0; 1; 2; 3]) env_done.

(** Two agents reported, but no observation array with them. *)
Definition frame_blind : Frame :=
  ({| ds_obs := []; ds_reward := [0; 0]; ds_agent_id := [0; 1] |},
   no_terminals).

Definition script_blind : list Frame :=
  [frame_none; frame_four; frame_blind].

(** The adapter just built on [script_blind], and after one [step]. *)
Definition env_blind
  : UnityWarehouseEnv (UB := scripted warehouse_behaviors script_blind) :=
  warehouse_env script_blind [frame_four; frame_blind].

Definition env_blind_tick
  : UnityWarehouseEnv (UB := scripted warehouse_behaviors script_blind) :=
  exec (OpStep [0; 1; 2; 3]) env_blind.

(** The adapter built on [script_done], after 999 further steps. *)
Definition env_done_late
  : UnityWarehouseEnv (UB := scripted warehouse_behaviors script_done) :=
  run (replicate 999 (OpStep [0; 0; 0; 0])) env_done.

(** The adapter built on [script_late], where no agent showed up. *)
Definition env_late
  : UnityWarehouseEnv (UB := scripted warehouse_behaviors script_late) :=
  warehouse_env script_late [frame_none; frame_four].

(** A behaviour with continuous actions only. *)
Definition continuous_spec : BehaviorSpec :=
  {| observation_specs := [ {| shape := [3%nat] |} ];
     action_spec := {| continuous_size := 2; discrete_branches := [] |} |}.

Definition continuous_behaviors : list (string * BehaviorSpec) :=
  [("WarehouseAgent?team=0", continuous_spec)].

(** Arguments as the training framework passes them to a SMAC entry. *)
Definition smac_args : gmap string PyVal :=
  {[ "common_reward" := PyBool true;
     "reward_scalarisation" := PyStr "sum";
     "map_name" := PyStr "3m" ]}.

(** A wrapper class that builds the warehouse facade, for runs of the
    registry functions. *)
Definition demo_wrapper
  : EnvFn (MultiAgentEnv :=
             UnityWarehouse (UB := scripted warehouse_behaviors script_done)) :=
  unity_warehouse_fn.

(** The start of a run of the self-test: nothing printed, nothing drawn. *)
Definition fresh_world : TestWorld := {| tw_stdout := []; tw_drawn := 0 |}.


(** * Properties *)

#[local] Instance Z_float_laws : PyFloatLaws Z.
Proof. split; [reflexivity | intros x; simpl; lia]. Qed.

(** ** Indexing and comprehensions *)

Lemma py_index_nat {A} (l : list A) (i : nat) (x : A) :
  l !! i = Some x -> py_index l (Z.of_nat i) = Ok x.
Proof.
  intros Hl. pose proof (lookup_lt_Some _ _ _ Hl) as Hlt.
  unfold py_index.
  destruct (Z.ltb_spec (Z.of_nat i) 0); [lia |].
  destruct (Z.ltb_spec (Z.of_nat i) 0); [lia |].
  destruct (Z.leb_spec (Z.of_nat (length l)) (Z.of_nat i)); [lia |].
  simpl. rewrite Nat2Z.id, Hl. reflexivity.
Qed.

Lemma py_index_negative {A} (l : list A) (i : Z) :
  - Z.of_nat (length l) <= i < 0 ->
  exists x, l !! Z.to_nat (Z.of_nat (length l) + i) = Some x
            /\ py_index l i = Ok x.
Proof.
  intros [Hlo Hhi].
  destruct (lookup_lt_is_Some_2 l (Z.to_nat (Z.of_nat (length l) + i)))
    as [x Hx]; [lia |].
  exists x. split; [exact Hx |].
  unfold py_index.
  destruct (Z.ltb_spec i 0); [| lia].
  destruct (Z.ltb_spec (i + Z.of_nat (length l)) 0); [lia |].
  destruct (Z.leb_spec (Z.of_nat (length l)) (i + Z.of_nat (length l)));
    [lia |].
  simpl. rewrite Z.add_comm, Hx. reflexivity.
Qed.

Lemma py_index_below {A} (l : list A) (i : Z) :
  i < - Z.of_nat (length l) -> py_index l i = Raise IndexError.
Proof.
  intros Hlt. unfold py_index.
  destruct (Z.ltb_spec i 0); [| lia].
  destruct (Z.ltb_spec (i + Z.of_nat (length l)) 0); [| lia].
  reflexivity.
Qed.

Lemma comprehension_suffix {A} (pre l : list A) :
  comprehension (fun i => py_index (pre ++ l) (Z.of_nat i))
    (seq (length pre) (length l)) = Ok l.
Proof.
  revert pre. induction l as [| x l IH]; intros pre; [reflexivity |].
  cbn [length seq comprehension].
  rewrite (py_index_nat (pre ++ x :: l) (length pre) x).
  2:{ rewrite lookup_app_r by lia. rewrite Nat.sub_diag. reflexivity. }
  cbn [rbind].
  specialize (IH (pre ++ [x])).
  rewrite length_app in IH. cbn [length] in IH.
  rewrite Nat.add_1_r in IH. rewrite <- app_assoc in IH. cbn [app] in IH.
  rewrite IH. reflexivity.
Qed.

(** [[obs[i] for i in range(len(obs))]] is [obs] itself, and never raises. *)
Lemma comprehension_rows {A} (l : list A) :
  comprehension (fun i => py_index l (Z.of_nat i)) (seq 0 (length l)) = Ok l.
Proof. exact (comprehension_suffix [] l). Qed.

Lemma map_const_seq {A} (c : A) (k n : nat) :
  map (fun _ => c) (seq k n) = replicate n c.
Proof.
  revert k. induction n as [| n IH]; intros k; [reflexivity |].
  cbn [seq map replicate]. f_equal. apply IH.
Qed.

Lemma length_concat_uniform {A} (w : nat) (ls : list (list A)) :
  Forall (fun v => length v = w) ls ->
  length (concat ls) = (length ls * w)%nat.
Proof.
  induction 1 as [| v ls Hv _ IH]; [reflexivity |].
  cbn [concat length]. rewrite length_app, IH, Hv. lia.
Qed.

(** ** The adapter *)

(** Case analysis on every call a method makes, in program order. *)
Ltac eff_cases :=
  unfold bind, query, get, modify, ret, on_unity_env, self_get_steps;
  repeat match goal with
    | |- context [match ?c with _ => _ end] =>
        lazymatch c with
        | context [match _ with _ => _ end] => fail
        | _ => let E := fresh "E" in
               destruct c eqn:E;
               cbn [fst snd lift_fault unity_env behavior_name set_unity_env
                    set_episode_steps set_episode_count set_total_steps]
        end
    end.

Section AdapterFacts.
Context {F : Type} {FO : PyFloatOps F} {UB : UnityBackend F}.

(** What [get_obs] returns, by the state of the decision set. *)
Lemma get_obs_cases (self : UnityWarehouseEnv) ds ts :
  self_get_steps self = Ok (ds, ts) ->
  get_obs self =
    if Nat.ltb 0 (ds_len ds) then py_index (ds_obs ds) 0
    else Ok (replicate (n_agents self) (np_zeros (obs_shape self))).
Proof.
  intros Hs. unfold get_obs. rewrite Hs. cbn [rbind].
  destruct (Nat.ltb 0 (ds_len ds)).
  - destruct (py_index (ds_obs ds) 0) as [obs |]; [| reflexivity].
    cbn [rbind]. apply comprehension_rows.
  - rewrite map_const_seq. reflexivity.
Qed.

(** The setters touch one field each. *)
Lemma self_get_steps_counters (self : UnityWarehouseEnv) v :
  self_get_steps (set_episode_steps v self) = self_get_steps self
  /\ self_get_steps (set_episode_count v self) = self_get_steps self
  /\ self_get_steps (set_total_steps v self) = self_get_steps self.
Proof. repeat split. Qed.

(** The run of [step] when it returns: the connection states it goes
    through and the sets it reads back. *)
Lemma step_returns (actions : list Z) (self self' : UnityWarehouseEnv) r :
  step actions self = (Ok r, self') ->
  exists u1 u2 ds ts obs,
    set_actions (behavior_name self) (map (fun a => [a]) actions)
      (unity_env self) = (None, u1)
    /\ env_step u1 = (None, u2)
    /\ get_steps u2 (behavior_name self) = inr (ds, ts)
    /\ self' = set_total_steps (_total_steps self + 1)
                 (set_episode_steps (_episode_steps self + 1)
                    (set_unity_env u2 self))
    /\ get_obs self' = Ok obs
    /\ r = {| sr_obs := obs;
              sr_reward := team_reward ds ts;
              sr_terminated := Nat.ltb 0 (ts_len ts);
              sr_truncated :=
                (episode_limit self <=? _episode_steps self + 1)
                && negb (Nat.ltb 0 (ts_len ts));
              sr_info := {| episode_steps := _episode_steps self + 1;
                            total_steps := _total_steps self + 1 |} |}.
Proof.
  unfold step, bind, query, get, modify, on_unity_env, self_get_steps.
  destruct (get_steps (unity_env self) (behavior_name self)) as [m | p0];
    cbn [lift_fault]; [discriminate |].
  destruct (set_actions (behavior_name self) (map (fun a => [a]) actions)
              (unity_env self)) as [[m |] u1] eqn:Hact; [discriminate |].
  cbn [unity_env set_unity_env].
  destruct (env_step u1) as [[m |] u2] eqn:Htick; [discriminate |].
  cbn [unity_env set_unity_env behavior_name].
  destruct (get_steps u2 (behavior_name self)) as [m | [ds ts]] eqn:Hread;
    cbn [lift_fault]; [discriminate |].
  match goal with
  | |- context [get_obs ?s] => destruct (get_obs s) as [obs |] eqn:Hobs
  end; [| discriminate].
  unfold ret. intros Heq. inversion Heq as [[Hr Hs]]. clear Heq.
  exists u1, u2, ds, ts, obs.
  split; [reflexivity |]. split; [exact Htick |]. split; [exact Hread |].
  split; [reflexivity |]. split; [exact Hobs | reflexivity].
Qed.

(** C1. Whenever [step] returns, [terminated] is true iff the terminal
    set read back after the tick is non-empty, [truncated] is true iff
    the incremented [episode_steps] has reached [episode_limit] and
    [terminated] is false, and so the two flags are never both true.
    This holds in every state of the adapter, in particular after a
    reset. *)
Theorem step_flags_exclusive
    (actions : list Z) (self self' : UnityWarehouseEnv) (r : StepReturn) :
  step actions self = (Ok r, self') ->
  exists ds ts,
    self_get_steps self' = Ok (ds, ts)
    /\ _episode_steps self' = _episode_steps self + 1
    /\ (sr_terminated r = true <-> ts_len ts <> 0%nat)
    /\ (sr_truncated r = true <->
        episode_limit self' <= _episode_steps self'
        /\ sr_terminated r = false)
    /\ ~ (sr_terminated r = true /\ sr_truncated r = true).
Proof.
  intros Hstep.
  destruct (step_returns _ _ _ _ Hstep)
    as (u1 & u2 & ds & ts & obs & _ & _ & Hread & -> & _ & ->).
  exists ds, ts.
  cbn [sr_terminated sr_truncated _episode_steps episode_limit
       set_total_steps set_episode_steps set_unity_env].
  split; [unfold self_get_steps; cbn; rewrite Hread; reflexivity |].
  split; [reflexivity |].
  split.
  { destruct (Nat.ltb_spec 0 (ts_len ts)); split; intros Hx;
      first [lia | reflexivity | discriminate]. }
  split.
  { rewrite andb_true_iff, negb_true_iff, Z.leb_le. reflexivity. }
  intros [Ht Hc]. rewrite Ht in Hc. rewrite andb_false_r in Hc.
  discriminate.
Qed.

(** C2. Whenever [step] returns, its reward is the sum of the rewards
    of the decision set read back after the tick plus the sum of the
    rewards of the terminal set read back after the tick, with nothing
    divided, discounted or scaled; it is 0.0 when both sets are empty.
    (Each set carries one reward per agent, as ML-Agents builds them.) *)
Theorem step_reward_is_sum {FL : PyFloatLaws F}
    (actions : list Z) (self self' : UnityWarehouseEnv) (r : StepReturn)
    (ds : DecisionSteps F) (ts : TerminalSteps F) :
  step actions self = (Ok r, self') ->
  self_get_steps self' = Ok (ds, ts) ->
  ds_rewards_aligned ds = true ->
  ts_rewards_aligned ts = true ->
  sr_reward r = f_add (np_sum (ds_reward ds)) (np_sum (ts_reward ts))
  /\ (ds_len ds = 0%nat -> ts_len ts = 0%nat -> sr_reward r = f_zero).
Proof.
  intros Hstep Hsets Hda Hta.
  destruct (step_returns _ _ _ _ Hstep)
    as (u1 & u2 & ds' & ts' & obs & _ & _ & Hread & -> & _ & ->).
  unfold self_get_steps in Hsets. cbn in Hsets. rewrite Hread in Hsets.
  cbn in Hsets. injection Hsets as -> ->.
  apply Nat.eqb_eq in Hda, Hta.
  cbn [sr_reward]. unfold team_reward.
  destruct (Nat.ltb_spec 0 (ds_len ds)) as [Hd | Hd];
    destruct (Nat.ltb_spec 0 (ts_len ts)) as [Ht | Ht].
  - split; [reflexivity | lia].
  - assert (Hnil : ts_reward ts = []) by (apply length_zero_iff_nil; lia).
    rewrite Hnil, np_sum_nil, f_add_0_r. split; [reflexivity | lia].
  - assert (Hnil : ds_reward ds = []) by (apply length_zero_iff_nil; lia).
    rewrite Hnil, np_sum_nil. split; [reflexivity | lia].
  - assert (Hn1 : ds_reward ds = []) by (apply length_zero_iff_nil; lia).
    assert (Hn2 : ts_reward ts = []) by (apply length_zero_iff_nil; lia).
    rewrite Hn1, Hn2, np_sum_nil, f_add_0_r. split; reflexivity.
Qed.

(** [reset] leaves [total_steps] alone, however it ends. *)
Lemma reset_total_steps (self : UnityWarehouseEnv) :
  _total_steps (snd (reset self)) = _total_steps self.
Proof. unfold reset. eff_cases; reflexivity. Qed.

(** [step] adds one to [total_steps] or, when it raises early, nothing. *)
Lemma step_total_steps (actions : list Z) (self : UnityWarehouseEnv) :
  _total_steps (snd (step actions self)) = _total_steps self
  \/ _total_steps (snd (step actions self)) = _total_steps self + 1.
Proof. unfold step. eff_cases; cbn; auto. Qed.

Lemma exec_total_steps (op : AdapterOp) (self : UnityWarehouseEnv) :
  _total_steps self <= _total_steps (exec op self).
Proof.
  destruct op; cbn [exec]; try lia.
  - rewrite reset_total_steps. lia.
  - destruct (step_total_steps actions self) as [-> | ->]; lia.
  - unfold close. eff_cases; cbn; lia.
  - cbn. lia.
  - cbn. lia.
  - cbn. lia.
Qed.

Lemma run_total_steps (ops : list AdapterOp) (self : UnityWarehouseEnv) :
  _total_steps self <= _total_steps (run ops self).
Proof.
  revert self. induction ops as [| op ops IH]; intros self; [cbn; lia |].
  cbn [run fold_left]. etransitivity; [apply (exec_total_steps op) |].
  apply IH.
Qed.

(** C3. A [reset] that returns has set [episode_steps] to 0 and added
    one to the episode counter; a [step] that returns has added exactly
    one to [episode_steps] and to [total_steps], whatever the
    termination flags are; and no call, returning or raising, lowers
    [total_steps], so it never decreases along any sequence of calls,
    resets included. *)
Theorem episode_clock (self : UnityWarehouseEnv) :
  (forall r self', reset self = (Ok r, self') ->
     _episode_steps self' = 0
     /\ _episode_count self' = _episode_count self + 1
     /\ _total_steps self' = _total_steps self)
  /\ (forall actions r self', step actions self = (Ok r, self') ->
        _episode_steps self' = _episode_steps self + 1
        /\ _total_steps self' = _total_steps self + 1)
  /\ (forall op, _total_steps self <= _total_steps (exec op self))
  /\ (forall ops, _total_steps self <= _total_steps (run ops self)).
Proof.
  split; [| split; [| split]].
  - intros r self'. unfold reset. eff_cases; intros Heq;
      inversion Heq; subst; cbn; auto.
  - intros actions r self' Hstep.
    destruct (step_returns _ _ _ _ Hstep)
      as (u1 & u2 & ds & ts & obs & _ & _ & _ & -> & _ & _).
    cbn. auto.
  - intros op. apply exec_total_steps.
  - intros ops. apply run_total_steps.
Qed.

End AdapterFacts.

(** ** Construction and what it fixes *)

Section Construction.
Context {F : Type} {FO : PyFloatOps F} {UB : UnityBackend F}.

Lemma count_agents_run (ds : DecisionSteps F) (out : Stdout) :
  count_agents ds out =
    if Nat.eqb (ds_len ds) 0 then (Ok 4%nat, out ++ [no_agents_warning])
    else (Ok (ds_len ds), out).
Proof.
  unfold count_agents. destruct (Nat.eqb (ds_len ds) 0); reflexivity.
Qed.

(** [connect] prints nothing. *)
Lemma connect_silent env_path no_graphics time_scale worker_id out r out' :
  connect env_path no_graphics time_scale worker_id out = (r, out') ->
  out' = out.
Proof.
  unfold connect, call. eff_cases; intros Heq; inversion Heq; reflexivity.
Qed.

(** The constructor, once the connection has delivered its first
    decision set and the behaviour spec can be read. *)
Lemma init_run env_path no_graphics time_scale worker_id out
    u name bspec ds nact oshape :
  connect env_path no_graphics time_scale worker_id out
  = (Ok (u, name, bspec, ds), out) ->
  read_spec bspec = Ok (nact, oshape) ->
  let n := if Nat.eqb (ds_len ds) 0 then 4%nat else ds_len ds in
  UnityWarehouseEnv__init__ env_path no_graphics time_scale worker_id out
  = (Ok {| unity_env := u; behavior_name := name; spec := bspec;
           n_agents := n; n_actions := nact; obs_shape := oshape;
           episode_limit := 1000; _episode_count := 0;
           _episode_steps := 0; _total_steps := 0 |},
     (if Nat.eqb (ds_len ds) 0 then out ++ [no_agents_warning] else out)
     ++ ["Unity Warehouse Environment initialized:";
         ("  Agents: " ++ str_of_nat n)%string;
         ("  Actions: " ++ str_of_nat nact)%string;
         ("  Observation shape: " ++ str_of_nat oshape)%string]).
Proof.
  intros Hc Hs n. unfold UnityWarehouseEnv__init__, bind at 1.
  rewrite Hc. unfold bind at 1. rewrite count_agents_run. subst n.
  destruct (Nat.eqb (ds_len ds) 0);
    unfold bind, query, print, modify, ret; rewrite Hs;
    repeat rewrite <- app_assoc; reflexivity.
Qed.

(** Conversely, a constructor that returns went through these steps. *)
Lemma init_returns env_path no_graphics time_scale worker_id out self out' :
  UnityWarehouseEnv__init__ env_path no_graphics time_scale worker_id out
  = (Ok self, out') ->
  exists u name bspec ds nact oshape,
    connect env_path no_graphics time_scale worker_id out
    = (Ok (u, name, bspec, ds), out)
    /\ read_spec bspec = Ok (nact, oshape).
Proof.
  unfold UnityWarehouseEnv__init__, bind at 1.
  destruct (connect env_path no_graphics time_scale worker_id out)
    as [[[[[u name] bspec] ds] | e] out1] eqn:Hc; [| discriminate].
  pose proof (connect_silent _ _ _ _ _ _ _ Hc) as ->.
  unfold bind at 1. rewrite count_agents_run.
  destruct (read_spec bspec) as [[nact oshape] | e] eqn:Hs.
  - intros _. exists u, name, bspec, ds, nact, oshape. split; [reflexivity | exact Hs].
  - destruct (Nat.eqb (ds_len ds) 0); unfold bind, query; discriminate.
Qed.

Lemma init_n_agents env_path no_graphics time_scale worker_id out self out' :
  UnityWarehouseEnv__init__ env_path no_graphics time_scale worker_id out
  = (Ok self, out') ->
  (0 < n_agents self)%nat.
Proof.
  intros Hinit.
  destruct (init_returns _ _ _ _ _ _ _ Hinit)
    as (u & name & bspec & ds & nact & oshape & Hc & Hs).
  rewrite (init_run _ _ _ _ _ _ _ _ _ _ _ Hc Hs) in Hinit.
  inversion Hinit as [[Hself Hout]]. cbn [n_agents].
  destruct (Nat.eqb_spec (ds_len ds) 0); lia.
Qed.

(** No method assigns the fields the constructor derived from the
    simulation. *)
Lemma exec_static (op : AdapterOp) (self : UnityWarehouseEnv) :
  n_agents (exec op self) = n_agents self
  /\ n_actions (exec op self) = n_actions self
  /\ obs_shape (exec op self) = obs_shape self
  /\ episode_limit (exec op self) = episode_limit self.
Proof.
  destruct op; cbn [exec]; try (repeat split; reflexivity).
  - unfold reset. eff_cases; repeat split; reflexivity.
  - unfold step. eff_cases; repeat split; reflexivity.
  - unfold close. eff_cases; repeat split; reflexivity.
Qed.

Lemma run_static (ops : list AdapterOp) (self : UnityWarehouseEnv) :
  get_env_info (run ops self) = get_env_info self.
Proof.
  revert self. induction ops as [| op ops IH]; intros self; [reflexivity |].
  cbn [run fold_left]. fold (run ops (exec op self)). rewrite IH.
  destruct (exec_static op self) as (Hn & Ha & Ho & Hl).
  unfold get_env_info, get_state_size, get_obs_size, get_total_actions.
  rewrite Hn, Ha, Ho, Hl. reflexivity.
Qed.

Lemma reachable_n_agents (self : UnityWarehouseEnv) :
  reachable self -> (0 < n_agents self)%nat.
Proof.
  induction 1 as [? ? ? ? ? ? ? Hinit | op self _ IH].
  - exact (init_n_agents _ _ _ _ _ _ _ Hinit).
  - destruct (exec_static op self) as (-> & _). exact IH.
Qed.

End Construction.

(** ** Observations and the global state *)

Section Observations.
Context {F : Type} {FO : PyFloatOps F} {UB : UnityBackend F}.

Lemma length_np_zeros (n : nat) : length (np_zeros (F := F) n) = n.
Proof. apply length_replicate. Qed.

Lemma py_index_head {A} (x : A) (l : list A) : py_index (x :: l) 0 = Ok x.
Proof. exact (py_index_nat (x :: l) 0 x eq_refl). Qed.

(** On a tick whose decision set is empty, or holds exactly [n_agents]
    agents with rows of width [obs_shape], [get_obs] returns [n_agents]
    vectors of length [obs_shape]. *)
Lemma get_obs_uniform (self : UnityWarehouseEnv) ds ts :
  self_get_steps self = Ok (ds, ts) ->
  ds_len ds = 0%nat
  \/ (ds_len ds = n_agents self /\ obs_conform (obs_shape self) ds = true) ->
  exists obs,
    get_obs self = Ok obs
    /\ length obs = n_agents self
    /\ Forall (fun v => length v = obs_shape self) obs.
Proof.
  intros Hs Hshape. rewrite (get_obs_cases self ds ts Hs).
  destruct (Nat.ltb_spec 0 (ds_len ds)) as [Hpos | Hzero].
  - destruct Hshape as [Hz | [Hn Hc]]; [lia |].
    unfold obs_conform in Hc.
    destruct (ds_obs ds) as [| arr rest]; [discriminate |].
    apply andb_true_iff in Hc as [Hlen Hrows].
    apply Nat.eqb_eq in Hlen.
    exists arr. rewrite py_index_head. split; [reflexivity |].
    split; [lia |].
    apply List.Forall_forall. intros row Hin.
    rewrite List.forallb_forall in Hrows.
    apply Nat.eqb_eq. apply Hrows. exact Hin.
  - exists (replicate (n_agents self) (np_zeros (obs_shape self))).
    split; [reflexivity |]. split; [apply length_replicate |].
    apply Forall_replicate. apply length_np_zeros.
Qed.



(** At or above the length of the list, the zero vector. *)
Lemma get_obs_agent_above (self : UnityWarehouseEnv) obs (agent_id : Z) :
  get_obs self = Ok obs ->
  Z.of_nat (length obs) <= agent_id ->
  get_obs_agent agent_id self = Ok (np_zeros (obs_shape self)).
Proof.
  intros Hobs Hge. unfold get_obs_agent. rewrite Hobs. cbn [rbind].
  destruct (Z.ltb_spec agent_id (Z.of_nat (length obs))); [lia | reflexivity].
Qed.

(** Below minus the length of the list, the guard lets the index
    through and the lookup raises. *)
Lemma get_obs_agent_below (self : UnityWarehouseEnv) obs (agent_id : Z) :
  get_obs self = Ok obs ->
  agent_id < - Z.of_nat (length obs) ->
  get_obs_agent agent_id self = Raise IndexError.
Proof.
  intros Hobs Hlt. unfold get_obs_agent. rewrite Hobs. cbn [rbind].
  destruct (Z.ltb_spec agent_id (Z.of_nat (length obs))); [| lia].
  apply py_index_below. exact Hlt.
Qed.

(** C10. For a negative [agent_id] with [-len(get_obs()) <= agent_id],
    [get_obs_agent] passes the guard and returns the element of
    [get_obs()] at position [len(get_obs()) + agent_id]; with [-1], the
    last one. The zero-vector branch is not taken. *)
Theorem get_obs_agent_negative (self : UnityWarehouseEnv) obs (agent_id : Z) :
  get_obs self = Ok obs ->
  - Z.of_nat (length obs) <= agent_id < 0 ->
  (agent_id <? Z.of_nat (length obs)) = true
  /\ exists v,
      obs !! Z.to_nat (Z.of_nat (length obs) + agent_id) = Some v
      /\ get_obs_agent agent_id self = Ok v
      /\ (agent_id = -1 -> last obs = Some v).
Proof.
  intros Hobs Hrange.
  assert (Hguard : (agent_id <? Z.of_nat (length obs)) = true)
    by (apply Z.ltb_lt; lia).
  split; [exact Hguard |].
  destruct (py_index_negative obs agent_id Hrange) as (v & Hv & Hidx).
  exists v. split; [exact Hv |]. split.
  - unfold get_obs_agent. rewrite Hobs. cbn [rbind]. rewrite Hguard.
    exact Hidx.
  - intros ->. rewrite last_lookup. rewrite <- Hv. f_equal. lia.
Qed.

End Observations.

(** ** The facade and the registry *)

Section FacadeFacts.
Context {F : Type} {FO : PyFloatOps F} {UB : UnityBackend F}.

Lemma on_env_info {A} (c : Eff UnityWarehouseEnv A) (self : UnityWarehouse) :
  _env_info (snd (on_env c self)) = _env_info self.
Proof. unfold on_env. destruct (c (env self)). reflexivity. Qed.

Lemma fac_exec_env_info (op : FacadeOp) (self : UnityWarehouse) :
  fac_get_env_info (fac_exec op self) = fac_get_env_info self.
Proof. destruct op; apply on_env_info. Qed.

Lemma fac_run_env_info (ops : list FacadeOp) (self : UnityWarehouse) :
  fac_get_env_info (fac_run ops self) = fac_get_env_info self.
Proof.
  revert self. induction ops as [| op ops IH]; intros self; [reflexivity |].
  cbn [fac_run fold_left]. fold (fac_run ops (fac_exec op self)).
  rewrite IH. apply fac_exec_env_info.
Qed.

(** A facade constructor that returns stored the descriptor of the
    adapter it has just built. *)
Lemma facade_init_returns (kwargs : gmap string PyVal) out fac out' :
  UnityWarehouse__init__ kwargs out = (Ok fac, out') ->
  _env_info fac = get_env_info (env fac)
  /\ UnityWarehouseEnv__init__
       (kwargs_get kwargs "env_path" PyNone)
       (kwargs_get kwargs "no_graphics" (PyBool false))
       (kwargs_get kwargs "time_scale" (PyFloat (20 # 1)))
       (kwargs_get kwargs "worker_id" (PyInt 0)) out
     = (Ok (env fac), out').
Proof.
  unfold UnityWarehouse__init__, bind, ret.
  destruct (UnityWarehouseEnv__init__ _ _ _ _ out) as [[e | x] o];
    [| discriminate].
  intros Heq. inversion Heq. subst. split; reflexivity.
Qed.

(** C6. After the facade has been built, whatever sequence of [reset]
    and [step] calls follows (returning or raising), [get_env_info()]
    returns the descriptor computed from the adapter at construction;
    it does not look at the adapter the facade holds, so it is never
    recomputed from the adapter's later state. *)
Theorem env_info_cached (kwargs : gmap string PyVal) out fac out' :
  UnityWarehouse__init__ kwargs out = (Ok fac, out') ->
  fac_get_env_info fac = get_env_info (env fac)
  /\ (forall ops,
        fac_get_env_info (fac_run ops fac) = get_env_info (env fac))
  /\ (forall ops e,
        fac_get_env_info (set_env e (fac_run ops fac))
        = get_env_info (env fac)).
Proof.
  intros Hinit. destruct (facade_init_returns _ _ _ _ Hinit) as [Hinfo _].
  unfold fac_get_env_info at 1. split; [exact Hinfo |]. split.
  - intros ops. rewrite fac_run_env_info. exact Hinfo.
  - intros ops e. unfold fac_get_env_info. cbn [set_env _env_info].
    fold (fac_get_env_info (fac_run ops fac)).
    rewrite fac_run_env_info. exact Hinfo.
Qed.

(** The outcome of the facade constructor depends on four keys only. *)
Lemma facade_init_four_keys (kwargs kwargs' : gmap string PyVal) out :
  kwargs !! "env_path" = kwargs' !! "env_path" ->
  kwargs !! "no_graphics" = kwargs' !! "no_graphics" ->
  kwargs !! "time_scale" = kwargs' !! "time_scale" ->
  kwargs !! "worker_id" = kwargs' !! "worker_id" ->
  UnityWarehouse__init__ kwargs out = UnityWarehouse__init__ kwargs' out.
Proof.
  intros H1 H2 H3 H4. unfold UnityWarehouse__init__, kwargs_get.
  rewrite H1, H2, H3, H4. reflexivity.
Qed.

(** C7, as the code has it. Constructing the unity-warehouse
    environment through the registry hands the keyword arguments to the
    facade as they are; the facade reads [env_path], [no_graphics],
    [time_scale] and [worker_id] from them and builds the adapter from
    these four alone, so the "common reward" flag and the
    reward-scalarisation mode never reach the adapter: the outcome is
    the one obtained with both removed. *)
Theorem unity_warehouse_fn_drops_flags (kwargs : gmap string PyVal) out :
  unity_warehouse_fn kwargs out
  = unity_warehouse_fn
      (delete "common_reward" (delete "reward_scalarisation" kwargs)) out
  /\ unity_warehouse_fn kwargs out
     = (let* e := UnityWarehouseEnv__init__
                    (kwargs_get kwargs "env_path" PyNone)
                    (kwargs_get kwargs "no_graphics" (PyBool false))
                    (kwargs_get kwargs "time_scale" (PyFloat (20 # 1)))
                    (kwargs_get kwargs "worker_id" (PyInt 0)) in
        ret {| env := e; _env_info := get_env_info e;
               fac_n_agents := n_agents e;
               fac_n_actions := n_actions e;
               fac_episode_limit := episode_limit e |}) out.
Proof.
  split; [| reflexivity].
  unfold unity_warehouse_fn. apply facade_init_four_keys;
    rewrite !lookup_delete_ne by discriminate; reflexivity.
Qed.

End FacadeFacts.

(** ** Runs on the scripted warehouse *)

Lemma reachable_env_done : reachable env_done.
Proof.
  apply (reach_init PyNone (PyBool false) (PyFloat (20 # 1)) (PyInt 0) []
           env_done
           ["Unity Warehouse Environment initialized:"; "  Agents: 4";
            "  Actions: 6"; "  Observation shape: 3"]).
  vm_compute. reflexivity.
Qed.

Lemma reachable_env_two_tick : reachable env_two_tick.
Proof.
  apply reach_exec.
  apply (reach_init PyNone (PyBool false) (PyFloat (20 # 1)) (PyInt 0) []
           (warehouse_env script_two [frame_four; frame_two])
           ["Unity Warehouse Environment initialized:"; "  Agents: 4";
            "  Actions: 6"; "  Observation shape: 3"]).
  vm_compute. reflexivity.
Qed.

Lemma step_flags_exclusive_witness :
  exists r self',
    step [0; 1; 2; 3] env_done = (Ok r, self')
    /\ exists ds ts,
        self_get_steps self' = Ok (ds, ts)
        /\ _episode_steps self' = _episode_steps env_done + 1
        /\ (sr_terminated r = true <-> ts_len ts <> 0%nat)
        /\ (sr_truncated r = true <->
            episode_limit self' <= _episode_steps self'
            /\ sr_terminated r = false)
        /\ ~ (sr_terminated r = true /\ sr_truncated r = true).
Proof.
  eexists. eexists. split.
  - vm_compute. reflexivity.
  - apply (step_flags_exclusive [0; 1; 2; 3] env_done).
    vm_compute. reflexivity.
Defined.

Lemma step_reward_is_sum_witness :
  exists r self',
    step [0; 1; 2; 3] env_done = (Ok r, self')
    /\ self_get_steps self' = Ok frame_done
    /\ sr_reward r
       = f_add (np_sum (ds_reward (fst frame_done)))
               (np_sum (ts_reward (snd frame_done)))
    /\ sr_reward r = 106.
Proof.
  eexists. eexists. split; [vm_compute; reflexivity |].
  split; [vm_compute; reflexivity |].
  split; [| vm_compute; reflexivity].
  eapply (step_reward_is_sum [0; 1; 2; 3] env_done);
    vm_compute; reflexivity.
Defined.

Lemma episode_clock_witness :
  exists r self',
    reset env_done_tick = (Ok r, self')
    /\ _episode_steps env_done_tick = 1
    /\ _episode_steps self' = 0
    /\ _episode_count self' = _episode_count env_done_tick + 1
    /\ _total_steps self' = _total_steps env_done_tick.
Proof.
  eexists. eexists. split; [vm_compute; reflexivity |].
  split; [vm_compute; reflexivity |].
  destruct (episode_clock env_done_tick) as [Hreset _].
  eapply Hreset. vm_compute. reflexivity.
Defined.



(** C7 fails as stated: with the flag absent, and with the flag false,
    construction through the registry goes on to connect and returns a
    facade (the SMAC helper, on the same arguments, raises). *)
Lemma registry_flag_counterexample :
  (∅ : gmap string PyVal) !! "common_reward" = None
  /\ is_ok (fst (unity_warehouse_fn
                   (UB := scripted warehouse_behaviors script_done)
                   ∅ [])) = true
  /\ (truthy <$> ({[ "common_reward" := PyBool false;
                     "reward_scalarisation" := PyStr "sum" ]}
                   : gmap string PyVal) !! "common_reward") = Some false
  /\ is_ok (fst (unity_warehouse_fn
                   (UB := scripted warehouse_behaviors script_done)
                   {[ "common_reward" := PyBool false;
                      "reward_scalarisation" := PyStr "sum" ]} [])) = true
  /\ is_ok (__check_and_prepare_smac_kwargs
              {[ "common_reward" := PyBool false;
                 "reward_scalarisation" := PyStr "sum" ]}) = false.
Proof. repeat split; vm_compute; reflexivity. Qed.



Lemma env_info_cached_witness :
  exists fac out',
    UnityWarehouse__init__ (UB := scripted warehouse_behaviors script_done)
      ∅ [] = (Ok fac, out')
    /\ fac_get_env_info
         (fac_run [FReset; FStep [0; 1; 2; 3]; FStep [0; 0; 0]] fac)
       = get_env_info (env fac).
Proof.
  eexists. eexists. split; [vm_compute; reflexivity |].
  refine (proj1 (proj2 (env_info_cached
                          (UB := scripted warehouse_behaviors script_done)
                          ∅ [] _ _ _)) _).
  vm_compute. reflexivity.
Defined.

Lemma get_obs_agent_negative_witness :
  get_obs env_done = Ok [[1; 0; 0]; [0; 1; 0]; [0; 0; 1]; [1; 1; 1]]
  /\ (-1 <? 4) = true
  /\ exists v,
      [[1; 0; 0]; [0; 1; 0]; [0; 0; 1]; [1; 1; 1]] !! Z.to_nat (4 + -1)
      = Some v
      /\ get_obs_agent (-1) env_done = Ok v
      /\ (-1 = -1 -> last [[1; 0; 0]; [0; 1; 0]; [0; 0; 1]; [1; 1; 1]]
                    = Some v).
Proof.
  split; [vm_compute; reflexivity |].
  apply (get_obs_agent_negative env_done
           [[1; 0; 0]; [0; 1; 0]; [0; 0; 1]; [1; 1; 1]] (-1)).
  - vm_compute. reflexivity.
  - cbn. lia.
Defined.

(** C9 is right and the code misses a case: with four agents,
    [get_obs_agent(99)] is the zero vector, but [get_obs_agent(-5)],
    also out of range, passes the guard [agent_id < len(obs_list)] and
    raises [IndexError] at [obs_list[agent_id]]. *)
Theorem get_obs_agent_below_range :
  get_obs env_done = Ok [[1; 0; 0]; [0; 1; 0]; [0; 0; 1]; [1; 1; 1]]
  /\ get_obs_agent 99 env_done = Ok [0; 0; 0]
  /\ get_obs_agent (-5) env_done = Raise IndexError.
Proof. repeat split; vm_compute; reflexivity. Qed.

(** * Further properties of the adapter *)

Section Bookkeeping.
Context {F : Type} {FO : PyFloatOps F} {UB : UnityBackend F}.

(** [step] moves [episode_steps] and [total_steps] together, and leaves
    the episode counter alone, however it ends. *)
Lemma step_counters (actions : list Z) (self : UnityWarehouseEnv) :
  _episode_count (snd (step actions self)) = _episode_count self
  /\ ((_episode_steps (snd (step actions self)) = _episode_steps self
       /\ _total_steps (snd (step actions self)) = _total_steps self)
      \/ (_episode_steps (snd (step actions self)) = _episode_steps self + 1
          /\ _total_steps (snd (step actions self)) = _total_steps self + 1)).
Proof. unfold step. eff_cases; cbn; auto. Qed.

Lemma reset_counters (self : UnityWarehouseEnv) :
  (_episode_steps (snd (reset self)) = _episode_steps self
   /\ _episode_count (snd (reset self)) = _episode_count self)
  \/ (_episode_steps (snd (reset self)) = 0
      /\ _episode_count (snd (reset self)) = _episode_count self + 1).
Proof. unfold reset. eff_cases; cbn; auto. Qed.

Lemma close_counters (self : UnityWarehouseEnv) :
  _episode_steps (snd (close self)) = _episode_steps self
  /\ _episode_count (snd (close self)) = _episode_count self
  /\ _total_steps (snd (close self)) = _total_steps self.
Proof. unfold close. eff_cases; cbn; auto. Qed.

Lemma exec_spec (op : AdapterOp) (self : UnityWarehouseEnv) :
  spec (exec op self) = spec self
  /\ behavior_name (exec op self) = behavior_name self.
Proof.
  destruct op; cbn [exec]; try (split; reflexivity).
  - unfold reset. eff_cases; split; reflexivity.
  - unfold step. eff_cases; split; reflexivity.
  - unfold close. eff_cases; split; reflexivity.
Qed.

Lemma reachable_clock (self : UnityWarehouseEnv) :
  reachable self ->
  0 <= _episode_steps self <= _total_steps self
  /\ 0 <= _episode_count self
  /\ episode_limit self = 1000.
Proof.
  induction 1 as [? ? ? ? ? ? ? Hinit | op self _ IH].
  - destruct (init_returns _ _ _ _ _ _ _ Hinit)
      as (u & name & bspec & ds & nact & oshape & Hc & Hs).
    rewrite (init_run _ _ _ _ _ _ _ _ _ _ _ Hc Hs) in Hinit.
    inversion Hinit as [[Hself Hout]]. cbn. lia.
  - destruct IH as (Hes & Hec & Hlim).
    destruct (exec_static op self) as (_ & _ & _ & ->).
    split; [| split; [| exact Hlim]].
    + destruct op; cbn [exec]; try (cbn; lia).
      * pose proof (reset_total_steps self) as Ht.
        destruct (reset_counters self) as [[He _] | [He _]]; lia.
      * destruct (step_counters actions self) as (_ & [[He Ht] | [He Ht]]);
          lia.
      * destruct (close_counters self) as (He & _ & Ht). lia.
    + destruct op; cbn [exec]; try (cbn; lia).
      * destruct (reset_counters self) as [[_ Hc] | [_ Hc]]; lia.
      * destruct (step_counters actions self) as (Hc & _). lia.
      * destruct (close_counters self) as (_ & Hc & _). lia.
Qed.

(** X4. On every adapter a program can hold, the three counters are
    non-negative, [episode_steps] never exceeds [total_steps], and the
    horizon is 1000. *)
Theorem clock_invariant (self : UnityWarehouseEnv) :
  reachable self ->
  0 <= _episode_steps self <= _total_steps self
  /\ 0 <= _episode_count self
  /\ episode_limit self = 1000.
Proof. exact (reachable_clock self). Qed.

(** X14. On every adapter a program can hold, the cached [n_actions]
    and [obs_shape] are the ones the stored behaviour spec gives, and
    [n_agents] is positive. *)
Theorem cached_sizes_match_spec (self : UnityWarehouseEnv) :
  reachable self ->
  read_spec (spec self) = Ok (n_actions self, obs_shape self)
  /\ (0 < n_agents self)%nat.
Proof.
  intros Hreach. split; [| exact (reachable_n_agents self Hreach)].
  induction Hreach as [? ? ? ? ? ? ? Hinit | op self _ IH].
  - destruct (init_returns _ _ _ _ _ _ _ Hinit)
      as (u & name & bspec & ds & nact & oshape & Hc & Hs).
    rewrite (init_run _ _ _ _ _ _ _ _ _ _ _ Hc Hs) in Hinit.
    inversion Hinit as [[Hself Hout]]. cbn. exact Hs.
  - destruct (exec_static op self) as (_ & -> & -> & _).
    destruct (exec_spec op self) as (-> & _). exact IH.
Qed.

(** X5. What a returning [step] hands back is what the adapter then
    holds: its observations are those [get_obs()] returns next, and its
    [info] carries the two counters as they now stand. *)
Theorem step_returns_current_view
    (actions : list Z) (self self' : UnityWarehouseEnv) (r : StepReturn) :
  step actions self = (Ok r, self') ->
  get_obs self' = Ok (sr_obs r)
  /\ episode_steps (sr_info r) = _episode_steps self'
  /\ total_steps (sr_info r) = _total_steps self'
  /\ get_env_info self' = get_env_info self.
Proof.
  intros Hstep.
  destruct (step_returns _ _ _ _ Hstep)
    as (u1 & u2 & ds & ts & obs & _ & _ & _ & -> & Hobs & ->).
  split; [exact Hobs |]. repeat split.
Qed.

(** X6. A [reset] that returns hands back the observations and the
    state the adapter then serves: the list [get_obs()] returns next,
    which is not empty, and its concatenation, which is what
    [get_state()] returns next. *)
Theorem reset_returns_current_view
    (self self' : UnityWarehouseEnv) (obs : list (list F)) (st : list F) :
  reset self = (Ok (obs, st), self') ->
  get_obs self' = Ok obs
  /\ get_state self' = Ok st
  /\ st = concat obs
  /\ obs <> [].
Proof.
  unfold reset. unfold bind, query, modify, ret, on_unity_env.
  destruct (env_reset (unity_env self)) as [[m |] u1]; [discriminate |].
  match goal with
  | |- context [self_get_steps ?s] =>
      destruct (self_get_steps s); [| discriminate];
      destruct (get_obs s) as [obs0 |] eqn:Hobs; [| discriminate];
      destruct (get_state s) as [st0 |] eqn:Hst; [| discriminate]
  end.
  intros Heq. inversion Heq; subst. clear Heq.
  split; [exact Hobs |]. split; [exact Hst |].
  unfold get_state in Hst. rewrite Hobs in Hst. cbn [rbind] in Hst.
  destruct obs as [| v obs]; [discriminate |].
  cbn [np_concatenate] in Hst. injection Hst as <-.
  split; [reflexivity | discriminate].
Qed.

(** X7. When [step] raises, either the simulation refused one of the
    calls before the bookkeeping, and then both counters are untouched,
    or the tick went through, both counters were incremented, and the
    exception is the one [get_obs()] raises on the new state. *)
Theorem step_raise_cases
    (actions : list Z) (self self' : UnityWarehouseEnv) (e : PyExn) :
  step actions self = (Raise e, self') ->
  ((exists msg, e = UnityException msg)
   /\ _episode_steps self' = _episode_steps self
   /\ _total_steps self' = _total_steps self)
  \/ (get_obs self' = Raise e
      /\ _episode_steps self' = _episode_steps self + 1
      /\ _total_steps self' = _total_steps self + 1).
Proof.
  unfold step, bind, query, get, modify, ret, on_unity_env, self_get_steps.
  destruct (get_steps (unity_env self) (behavior_name self)) as [m | p0];
    cbn [lift_fault].
  { intros Heq. inversion Heq. left. eauto. }
  destruct (set_actions (behavior_name self) (map (fun a => [a]) actions)
              (unity_env self)) as [[m |] u1].
  { intros Heq. inversion Heq. left. eauto. }
  cbn [unity_env set_unity_env].
  destruct (env_step u1) as [[m |] u2].
  { intros Heq. inversion Heq. left. eauto. }
  cbn [unity_env set_unity_env behavior_name].
  destruct (get_steps u2 (behavior_name self)) as [m | [ds ts]];
    cbn [lift_fault].
  { intros Heq. inversion Heq. left. eauto. }
  match goal with
  | |- context [get_obs ?s] => destruct (get_obs s) as [obs | e0] eqn:Hobs
  end; [discriminate |].
  intros Heq. inversion Heq; subst. right. split; [exact Hobs |].
  split; reflexivity.
Qed.

(** X8. When [reset] raises, [total_steps] is untouched; if it is the
    simulation's own reset that failed, the episode bookkeeping is
    untouched too, and otherwise the new episode has already been
    opened ([episode_steps] is 0, the episode counter is one higher). *)
Theorem reset_raise_cases (self self' : UnityWarehouseEnv) (e : PyExn) :
  reset self = (Raise e, self') ->
  _total_steps self' = _total_steps self
  /\ ((exists msg, e = UnityException msg
                   /\ fst (env_reset (unity_env self)) = Some msg)
      /\ _episode_steps self' = _episode_steps self
      /\ _episode_count self' = _episode_count self
      \/ fst (env_reset (unity_env self)) = None
         /\ _episode_steps self' = 0
         /\ _episode_count self' = _episode_count self + 1).
Proof.
  unfold reset, bind, query, modify, ret, on_unity_env.
  destruct (env_reset (unity_env self)) as [[m |] u1]; cbn [fst].
  { intros Heq. inversion Heq. split; [reflexivity |]. left. eauto. }
  match goal with
  | |- context [self_get_steps ?s] =>
      destruct (self_get_steps s);
      [ destruct (get_obs s);
        [ destruct (get_state s); [discriminate |] | ] | ]
  end;
    intros Heq; inversion Heq; subst; split; try reflexivity; right;
    repeat split.
Qed.

End Bookkeeping.

Section Queries.
Context {F : Type} {FO : PyFloatOps F} {UB : UnityBackend F}.

Lemma concat_replicate_rows {A} (n m : nat) (x : A) :
  concat (replicate n (replicate m x)) = replicate (n * m) x.
Proof.
  induction n as [| n IH]; [reflexivity |].
  cbn [replicate concat Nat.mul]. rewrite IH. symmetry. apply replicate_add.
Qed.

(** X1. [get_avail_actions()] is an all-ones mask with [n_agents] rows
    of [n_actions] entries, and [get_avail_agent_actions(i)] is one such
    row for every [i], in range or not. *)
Theorem avail_actions_all_ones (self : UnityWarehouseEnv) :
  get_avail_actions self
  = replicate (n_agents self) (replicate (n_actions self) 1)
  /\ length (get_avail_actions self) = n_agents self
  /\ (forall agent_id : Z,
        get_avail_agent_actions agent_id self
        = replicate (n_actions self) 1
        /\ length (get_avail_agent_actions agent_id self) = n_actions self).
Proof.
  unfold get_avail_actions, get_avail_agent_actions.
  rewrite map_const_seq. split; [reflexivity |].
  split; [apply length_replicate |].
  intros _. split; [reflexivity | apply length_replicate].
Qed.

(** X2. No sequence of calls on the adapter, returning or raising,
    changes what its own [get_env_info()] reports; and the reported
    [state_shape] is [get_state_size()], the product of the reported
    [obs_shape] and [n_agents]. *)
Theorem adapter_env_info_stable
    (ops : list AdapterOp) (self : UnityWarehouseEnv) :
  get_env_info (run ops self) = get_env_info self
  /\ state_shape (get_env_info (run ops self)) = get_state_size self
  /\ state_shape (get_env_info self)
     = (info_obs_shape (get_env_info self)
        * info_n_agents (get_env_info self))%nat.
Proof.
  rewrite run_static. repeat split.
Qed.

(** X9. With [obs = get_obs()]: for [0 <= agent_id < len(obs)],
    [get_obs_agent(agent_id)] is [obs[agent_id]]; for
    [agent_id >= len(obs)] it is a zero vector of length [obs_shape]. *)
Theorem get_obs_agent_in_and_above
    (self : UnityWarehouseEnv) (obs : list (list F)) (agent_id : Z) :
  get_obs self = Ok obs ->
  (0 <= agent_id < Z.of_nat (length obs) ->
   exists v, obs !! Z.to_nat agent_id = Some v
             /\ get_obs_agent agent_id self = Ok v)
  /\ (Z.of_nat (length obs) <= agent_id ->
      get_obs_agent agent_id self = Ok (replicate (obs_shape self) f_zero)
      /\ length (replicate (obs_shape self) (f_zero (F := F)))
         = obs_shape self).
Proof.
  intros Hobs. split.
  - intros [Hlo Hhi].
    destruct (lookup_lt_is_Some_2 obs (Z.to_nat agent_id)) as [v Hv]; [lia |].
    exists v. split; [exact Hv |].
    unfold get_obs_agent. rewrite Hobs. cbn [rbind].
    destruct (Z.ltb_spec agent_id (Z.of_nat (length obs))); [| lia].
    rewrite <- (Z2Nat.id agent_id) by lia. apply py_index_nat. exact Hv.
  - intros Hge. split; [| apply length_replicate].
    exact (get_obs_agent_above self obs agent_id Hobs Hge).
Qed.

(** X10. When the decision set holds agents but carries no observation
    array, [get_obs()] raises [IndexError]; and whatever [get_obs()]
    raises, [get_state()] and [get_obs_agent(i)] raise the same. *)
Theorem get_obs_failures (self : UnityWarehouseEnv) :
  (forall ds ts,
     self_get_steps self = Ok (ds, ts) ->
     ds_len ds <> 0%nat -> ds_obs ds = [] ->
     get_obs self = Raise IndexError)
  /\ (forall e,
        get_obs self = Raise e ->
        get_state self = Raise e
        /\ forall agent_id, get_obs_agent agent_id self = Raise e).
Proof.
  split.
  - intros ds ts Hs Hne Hnil. rewrite (get_obs_cases self ds ts Hs).
    destruct (Nat.ltb_spec 0 (ds_len ds)); [| lia].
    rewrite Hnil. reflexivity.
  - intros e He. unfold get_state, get_obs_agent. rewrite He.
    split; [reflexivity | intros agent_id; reflexivity].
Qed.

(** X11. On a tick whose decision set is empty, [get_obs()] is
    [n_agents] zero vectors of length [obs_shape], and [get_state()] is
    the zero vector of length [n_agents * obs_shape] (with no agent at
    all it is numpy's [ValueError] for an empty concatenation). *)
Theorem empty_decision_set_zeros (self : UnityWarehouseEnv) ds ts :
  self_get_steps self = Ok (ds, ts) ->
  ds_len ds = 0%nat ->
  get_obs self
  = Ok (replicate (n_agents self) (replicate (obs_shape self) f_zero))
  /\ get_state self
     = if Nat.eqb (n_agents self) 0 then Raise ValueError
       else Ok (replicate (n_agents self * obs_shape self) f_zero).
Proof.
  intros Hs Hz.
  assert (Hobs : get_obs self
                 = Ok (replicate (n_agents self)
                         (replicate (obs_shape self) f_zero))).
  { rewrite (get_obs_cases self ds ts Hs). rewrite Hz. reflexivity. }
  split; [exact Hobs |].
  unfold get_state. rewrite Hobs. cbn [rbind].
  destruct (n_agents self) as [| n]; [reflexivity |].
  cbn [Nat.eqb]. rewrite <- concat_replicate_rows. reflexivity.
Qed.

End Queries.

Section ConstructorEdges.
Context {F : Type} {FO : PyFloatOps F} {UB : UnityBackend F}.

(** X12. A falsy [env_path] (the empty string, [False], 0) is handled
    exactly like [None]: the constructor attaches to a running Editor,
    and its outcome is the one [env_path=None] gives. *)
Theorem falsy_env_path_is_none
    (env_path no_graphics time_scale worker_id : PyVal) (out : Stdout) :
  truthy env_path = false ->
  UnityWarehouseEnv__init__ env_path no_graphics time_scale worker_id out
  = UnityWarehouseEnv__init__ PyNone no_graphics time_scale worker_id out.
Proof.
  intros Hf. unfold UnityWarehouseEnv__init__, connect.
  rewrite Hf. reflexivity.
Qed.

Lemma read_spec_raises (bspec : BehaviorSpec) e :
  read_spec bspec = Raise e -> e = IndexError.
Proof.
  assert (Hidx : forall (A : Type) (l : list A) i e0,
             py_index l i = Raise e0 -> e0 = IndexError).
  { intros A l i e0. unfold py_index.
    destruct ((_ <? 0) || _)%bool; [congruence |].
    destruct (l !! _); [discriminate | congruence]. }
  unfold read_spec.
  destruct (py_index (discrete_branches (action_spec bspec)) 0) eqn:E1;
    cbn [rbind]; [| intros [= <-]; exact (Hidx _ _ _ _ E1)].
  destruct (Nat.ltb 0 (length (observation_specs bspec))); cbn [rbind];
    [| discriminate].
  destruct (py_index (observation_specs bspec) 0) as [o |] eqn:E2;
    cbn [rbind]; [| intros [= <-]; exact (Hidx _ _ _ _ E2)].
  destruct (py_index (shape o) 0) eqn:E3; cbn [rbind]; [discriminate |].
  intros [= <-]. exact (Hidx _ _ _ _ E3).
Qed.

(** X13. When the first decision set has been read but the behaviour
    has no discrete action branch, the constructor raises [IndexError],
    after the zero-agent warning if there was no agent; and a failure
    while connecting is raised by the constructor as it is, with
    nothing printed. *)
Theorem constructor_failures
    (env_path no_graphics time_scale worker_id : PyVal) (out : Stdout) :
  (forall u name bspec (ds : DecisionSteps F),
     connect env_path no_graphics time_scale worker_id out
     = (Ok (u, name, bspec, ds), out) ->
     discrete_branches (action_spec bspec) = [] ->
     UnityWarehouseEnv__init__ env_path no_graphics time_scale worker_id out
     = (Raise IndexError,
        if Nat.eqb (ds_len ds) 0 then out ++ [no_agents_warning] else out))
  /\ (forall e out',
        connect env_path no_graphics time_scale worker_id out
        = (Raise e, out') ->
        UnityWarehouseEnv__init__ env_path no_graphics time_scale worker_id
          out
        = (Raise e, out)).
Proof.
  split.
  - intros u name bspec ds Hc Hnil.
    unfold UnityWarehouseEnv__init__, bind at 1. rewrite Hc.
    unfold bind at 1. rewrite count_agents_run.
    assert (Hs : read_spec bspec = Raise IndexError)
      by (unfold read_spec; rewrite Hnil; reflexivity).
    destruct (Nat.eqb (ds_len ds) 0); unfold bind, query; rewrite Hs;
      reflexivity.
  - intros e out' Hc. pose proof (connect_silent _ _ _ _ _ _ _ Hc) as ->.
    unfold UnityWarehouseEnv__init__, bind at 1. rewrite Hc. reflexivity.
Qed.

(** X20. When the first decision set holds agents, a constructor that
    returns has taken their number as [n_agents], has zeroed the three
    counters, and has printed its four report lines and no warning. *)
Theorem constructor_counts_agents
    (env_path no_graphics time_scale worker_id : PyVal) (out out' : Stdout)
    u name bspec (ds : DecisionSteps F) (self : UnityWarehouseEnv) :
  connect env_path no_graphics time_scale worker_id out
  = (Ok (u, name, bspec, ds), out) ->
  ds_len ds <> 0%nat ->
  UnityWarehouseEnv__init__ env_path no_graphics time_scale worker_id out
  = (Ok self, out') ->
  n_agents self = ds_len ds
  /\ unity_env self = u
  /\ (_episode_count self = 0 /\ _episode_steps self = 0
      /\ _total_steps self = 0)
  /\ out' = out ++ ["Unity Warehouse Environment initialized:";
                    ("  Agents: " ++ str_of_nat (n_agents self))%string;
                    ("  Actions: " ++ str_of_nat (n_actions self))%string;
                    ("  Observation shape: "
                     ++ str_of_nat (obs_shape self))%string].
Proof.
  intros Hc Hne Hinit.
  destruct (init_returns _ _ _ _ _ _ _ Hinit)
    as (u' & name' & bspec' & ds' & nact & oshape & Hc' & Hs).
  rewrite Hc in Hc'. inversion Hc'; subst u' name' bspec' ds'.
  rewrite (init_run _ _ _ _ _ _ _ _ _ _ _ Hc Hs) in Hinit.
  destruct (Nat.eqb_spec (ds_len ds) 0) as [Hz | _]; [contradiction |].
  inversion Hinit as [[Hself Hout]]. cbn. repeat split.
Qed.

End ConstructorEdges.

(** * Further properties of the facade and the registry *)

Section FacadeCache.
Context {F : Type} {FO : PyFloatOps F} {UB : UnityBackend F}.

Lemma fac_exec_fields (op : FacadeOp) (self : UnityWarehouse) :
  fac_n_agents (fac_exec op self) = fac_n_agents self
  /\ fac_n_actions (fac_exec op self) = fac_n_actions self
  /\ fac_episode_limit (fac_exec op self) = fac_episode_limit self
  /\ get_env_info (env (fac_exec op self)) = get_env_info (env self).
Proof.
  destruct op; cbn [fac_exec]; unfold fac_reset, fac_step, on_env.
  - pose proof (run_static [OpReset] (env self)) as Hs.
    cbn [run fold_left exec] in Hs.
    destruct (reset (env self)) as [r e]. cbn in *. repeat split. exact Hs.
  - pose proof (run_static [OpStep actions] (env self)) as Hs.
    cbn [run fold_left exec] in Hs.
    destruct (step actions (env self)) as [r e]. cbn in *.
    repeat split. exact Hs.
Qed.

Lemma fac_run_fields (ops : list FacadeOp) (self : UnityWarehouse) :
  fac_n_agents (fac_run ops self) = fac_n_agents self
  /\ fac_n_actions (fac_run ops self) = fac_n_actions self
  /\ fac_episode_limit (fac_run ops self) = fac_episode_limit self
  /\ get_env_info (env (fac_run ops self)) = get_env_info (env self).
Proof.
  revert self. induction ops as [| op ops IH]; intros self;
    [repeat split |].
  cbn [fac_run fold_left]. fold (fac_run ops (fac_exec op self)).
  destruct (IH (fac_exec op self)) as (-> & -> & -> & ->).
  apply fac_exec_fields.
Qed.

(** X3. After any sequence of [reset] and [step] calls on a facade, the
    descriptor it stored and its own [n_agents], [n_actions] and
    [episode_limit] still agree with what the adapter it now holds
    reports: recomputing [get_env_info()] on the adapter would give the
    stored descriptor. *)
Theorem facade_cache_agrees
    (kwargs : gmap string PyVal) (out out' : Stdout) (fac : UnityWarehouse)
    (ops : list FacadeOp) :
  UnityWarehouse__init__ kwargs out = (Ok fac, out') ->
  fac_get_env_info (fac_run ops fac) = get_env_info (env (fac_run ops fac))
  /\ fac_n_agents (fac_run ops fac) = n_agents (env (fac_run ops fac))
  /\ fac_n_actions (fac_run ops fac)
     = fac_get_total_actions (fac_run ops fac)
  /\ fac_episode_limit (fac_run ops fac)
     = episode_limit (env (fac_run ops fac))
  /\ fac_get_state_size (fac_run ops fac)
     = state_shape (fac_get_env_info (fac_run ops fac)).
Proof.
  intros Hinit.
  assert (Hfields : _env_info fac = get_env_info (env fac)
                    /\ fac_n_agents fac = n_agents (env fac)
                    /\ fac_n_actions fac = n_actions (env fac)
                    /\ fac_episode_limit fac = episode_limit (env fac)).
  { revert Hinit. unfold UnityWarehouse__init__, bind, ret.
    destruct (UnityWarehouseEnv__init__ _ _ _ _ out) as [[e | x] o];
      [| discriminate].
    intros Heq. inversion Heq. subst. repeat split. }
  destruct Hfields as (Hinfo & Hn & Ha & Hl).
  destruct (fac_run_fields ops fac) as (Hrn & Hra & Hrl & Hri).
  pose proof (fac_run_env_info ops fac) as Hcache.
  unfold fac_get_env_info in *.
  assert (Hlive : _env_info (fac_run ops fac)
                  = get_env_info (env (fac_run ops fac)))
    by (rewrite Hcache, Hri; exact Hinfo).
  split; [exact Hlive |].
  unfold fac_get_total_actions, fac_get_state_size.
  rewrite Hrn, Hra, Hrl, Hlive, Hn, Ha, Hl.
  change (n_agents (env fac)) with (info_n_agents (get_env_info (env fac))).
  change (n_actions (env fac)) with (info_n_actions (get_env_info (env fac))).
  change (episode_limit (env fac))
    with (info_episode_limit (get_env_info (env fac))).
  rewrite <- Hri. repeat split.
Qed.

End FacadeCache.

(** ** The SMAC argument check *)

Lemma smac_kwargs_cases (kwargs : gmap string PyVal) :
  (forall kwargs',
     __check_and_prepare_smac_kwargs kwargs = Ok kwargs' <->
     (exists v, kwargs !! "common_reward" = Some v /\ truthy v = true)
     /\ is_Some (kwargs !! "reward_scalarisation")
     /\ is_Some (kwargs !! "map_name")
     /\ kwargs' = delete "reward_scalarisation"
                    (delete "common_reward" kwargs))
  /\ (forall kwargs',
        __check_and_prepare_smac_kwargs kwargs = Ok kwargs' ->
        kwargs' !! "common_reward" = None
        /\ kwargs' !! "reward_scalarisation" = None
        /\ forall key, key <> "common_reward" ->
                       key <> "reward_scalarisation" ->
                       kwargs' !! key = kwargs !! key)
  /\ (forall e,
        __check_and_prepare_smac_kwargs kwargs = Raise e ->
        exists msg, e = AssertionError msg).
Proof.
  assert (Hmap : (delete "reward_scalarisation"
                    (delete "common_reward" kwargs)) !! "map_name"
                 = kwargs !! "map_name")
    by (rewrite !lookup_delete_ne by discriminate; reflexivity).
  assert (Hiff : forall kwargs',
     __check_and_prepare_smac_kwargs kwargs = Ok kwargs' <->
     (exists v, kwargs !! "common_reward" = Some v /\ truthy v = true)
     /\ is_Some (kwargs !! "reward_scalarisation")
     /\ is_Some (kwargs !! "map_name")
     /\ kwargs' = delete "reward_scalarisation"
                    (delete "common_reward" kwargs)).
  { intros kwargs'. unfold __check_and_prepare_smac_kwargs.
    destruct (kwargs !! "common_reward") as [cr |] eqn:Hcr.
    2:{ split; [discriminate |]. intros ([v [Hv _]] & _). discriminate. }
    destruct (kwargs !! "reward_scalarisation") as [rs |] eqn:Hrs.
    2:{ split; [discriminate |]. intros (_ & [x Hx] & _). discriminate. }
    destruct (truthy cr) eqn:Ht.
    2:{ split; [discriminate |]. intros ([v [Hv Htv]] & _).
        injection Hv as <-. congruence. }
    rewrite Hmap.
    destruct (kwargs !! "map_name") as [mn |] eqn:Hmn.
    2:{ split; [discriminate |]. intros (_ & _ & [x Hx] & _). discriminate. }
    split.
    - intros [= <-]. split; [eauto |]. split; [eauto |]. split; [eauto |].
      reflexivity.
    - intros (_ & _ & _ & ->). reflexivity. }
  split; [exact Hiff |]. split.
  - intros kwargs' Hok. apply Hiff in Hok as (_ & _ & _ & ->).
    split; [rewrite lookup_delete_ne by discriminate;
            apply lookup_delete_eq |].
    split; [apply lookup_delete_eq |].
    intros key H1 H2. rewrite !lookup_delete_ne by congruence. reflexivity.
  - intros e. unfold __check_and_prepare_smac_kwargs.
    destruct (kwargs !! "common_reward") as [cr |]; [| intros [= <-]; eauto].
    destruct (kwargs !! "reward_scalarisation") as [rs |];
      [| intros [= <-]; eauto].
    destruct (truthy cr); [| intros [= <-]; eauto].
    rewrite Hmap.
    destruct (kwargs !! "map_name"); [discriminate | intros [= <-]; eauto].
Qed.

(** X16. [__check_and_prepare_smac_kwargs] returns exactly when
    [common_reward] is present and truthy, [reward_scalarisation] is
    present and [map_name] is present; what it returns is the arguments
    without the two flags, every other key as it was; and anything it
    raises is an [AssertionError]. *)
Theorem smac_kwargs_check (kwargs : gmap string PyVal) :
  (forall kwargs',
     __check_and_prepare_smac_kwargs kwargs = Ok kwargs' <->
     (exists v, kwargs !! "common_reward" = Some v /\ truthy v = true)
     /\ is_Some (kwargs !! "reward_scalarisation")
     /\ is_Some (kwargs !! "map_name")
     /\ kwargs' = delete "reward_scalarisation"
                    (delete "common_reward" kwargs))
  /\ (forall kwargs',
        __check_and_prepare_smac_kwargs kwargs = Ok kwargs' ->
        kwargs' !! "common_reward" = None
        /\ kwargs' !! "reward_scalarisation" = None
        /\ forall key, key <> "common_reward" ->
                       key <> "reward_scalarisation" ->
                       kwargs' !! key = kwargs !! key)
  /\ (forall e,
        __check_and_prepare_smac_kwargs kwargs = Raise e ->
        exists msg, e = AssertionError msg).
Proof. exact (smac_kwargs_cases kwargs). Qed.

(** X17. The check cannot be applied twice: on the arguments it
    returned, it raises the [AssertionError] of its first assertion,
    the flags being gone. *)
Theorem smac_kwargs_check_twice (kwargs kwargs' : gmap string PyVal) :
  __check_and_prepare_smac_kwargs kwargs = Ok kwargs' ->
  __check_and_prepare_smac_kwargs kwargs' = Raise (AssertionError "").
Proof.
  intros Hok.
  assert (Hgone : kwargs' !! "common_reward" = None).
  { revert Hok. unfold __check_and_prepare_smac_kwargs.
    destruct (kwargs !! "common_reward") as [cr |]; [| discriminate].
    destruct (kwargs !! "reward_scalarisation"); [| discriminate].
    destruct (truthy cr); [| discriminate].
    destruct (_ !! "map_name"); [| discriminate].
    intros [= <-]. rewrite lookup_delete_ne by discriminate.
    apply lookup_delete_eq. }
  unfold __check_and_prepare_smac_kwargs. rewrite Hgone. reflexivity.
Qed.

(** ** The registry *)

Section RegistryFacts.
Context {F : Type} {FO : PyFloatOps F} {UB : UnityBackend F}.
Context {MultiAgentEnv : Type}.
Variable upcast : UnityWarehouse -> MultiAgentEnv.

(** X18. Whatever optional wrappers failed to import, the registry has
    the ["unity_warehouse"] entry; it has ["smaclite"] and ["gymma"]
    exactly when their wrapper imported, and no SMAC entry until
    [register_smac] or [register_smacv2] adds it, which changes no other
    key. *)
Theorem registry_entries
    (SMACliteWrapper GymmaWrapper : option (EnvFn (MultiAgentEnv := MultiAgentEnv)))
    (W W2 : EnvFn (MultiAgentEnv := MultiAgentEnv))
    (registry : gmap string (EnvFn (MultiAgentEnv := MultiAgentEnv))) :
  REGISTRY upcast SMACliteWrapper GymmaWrapper !! "unity_warehouse"
  = Some (unity_warehouse_entry upcast)
  /\ REGISTRY upcast SMACliteWrapper GymmaWrapper !! "smaclite"
     = smaclite_fn <$> SMACliteWrapper
  /\ REGISTRY upcast SMACliteWrapper GymmaWrapper !! "gymma"
     = gymma_fn <$> GymmaWrapper
  /\ REGISTRY upcast SMACliteWrapper GymmaWrapper !! "sc2" = None
  /\ REGISTRY upcast SMACliteWrapper GymmaWrapper !! "sc2v2" = None
  /\ register_smac W registry !! "sc2" = Some (smac_fn W)
  /\ register_smacv2 W2 registry !! "sc2v2" = Some (smacv2_fn W2)
  /\ (forall key, key <> "sc2" ->
        register_smac W registry !! key = registry !! key)
  /\ (forall key, key <> "sc2v2" ->
        register_smacv2 W2 registry !! key = registry !! key).
Proof.
  unfold REGISTRY, register_smac, register_smacv2.
  split; [apply lookup_insert_eq |].
  split.
  { rewrite lookup_insert_ne by discriminate.
    destruct GymmaWrapper; [rewrite lookup_insert_ne by discriminate |];
      (destruct SMACliteWrapper;
       [apply lookup_insert_eq | apply lookup_empty]). }
  split.
  { rewrite lookup_insert_ne by discriminate.
    destruct GymmaWrapper; [apply lookup_insert_eq |].
    destruct SMACliteWrapper;
      [rewrite lookup_insert_ne by discriminate |]; apply lookup_empty. }
  split.
  { rewrite lookup_insert_ne by discriminate.
    destruct GymmaWrapper; [rewrite lookup_insert_ne by discriminate |];
      (destruct SMACliteWrapper;
       [rewrite lookup_insert_ne by discriminate |]; apply lookup_empty). }
  split.
  { rewrite lookup_insert_ne by discriminate.
    destruct GymmaWrapper; [rewrite lookup_insert_ne by discriminate |];
      (destruct SMACliteWrapper;
       [rewrite lookup_insert_ne by discriminate |]; apply lookup_empty). }
  split; [apply lookup_insert_eq |].
  split; [apply lookup_insert_eq |].
  split; intros key Hne; apply lookup_insert_ne; congruence.
Qed.

(** X21. The SMAC-style entries call their wrapper only with checked
    arguments, from which both flags have been removed, and raise the
    check's [AssertionError] without calling it otherwise; [gymma_fn]
    only asserts that both flags are present, and then hands the
    arguments, flags included, to its wrapper. *)
Theorem registry_constructors_validate
    (W : EnvFn (MultiAgentEnv := MultiAgentEnv))
    (kwargs : gmap string PyVal) (out : Stdout) :
  (forall kw,
     __check_and_prepare_smac_kwargs kwargs = Ok kw ->
     smaclite_fn W kwargs out = W kw out
     /\ smac_fn W kwargs out = W kw out
     /\ smacv2_fn W kwargs out = W kw out
     /\ kw !! "common_reward" = None
     /\ kw !! "reward_scalarisation" = None)
  /\ (forall e,
        __check_and_prepare_smac_kwargs kwargs = Raise e ->
        smaclite_fn W kwargs out = (Raise e, out)
        /\ smac_fn W kwargs out = (Raise e, out)
        /\ smacv2_fn W kwargs out = (Raise e, out)
        /\ exists msg, e = AssertionError msg)
  /\ (is_Some (kwargs !! "common_reward") ->
      is_Some (kwargs !! "reward_scalarisation") ->
      gymma_fn W kwargs out = W kwargs out)
  /\ (kwargs !! "common_reward" = None
      \/ kwargs !! "reward_scalarisation" = None ->
      gymma_fn W kwargs out = (Raise (AssertionError ""), out)).
Proof.
  destruct (smac_kwargs_cases kwargs) as (_ & Hstrip & Hassert).
  split; [| split; [| split]].
  - intros kw Hok. unfold smaclite_fn, smac_fn, smacv2_fn, bind, query.
    rewrite Hok. destruct (Hstrip kw Hok) as (H1 & H2 & _).
    repeat split; assumption.
  - intros e He. unfold smaclite_fn, smac_fn, smacv2_fn, bind, query.
    rewrite He. repeat split. exact (Hassert e He).
  - intros [a Ha] [b Hb]. unfold gymma_fn. rewrite Ha, Hb. reflexivity.
  - unfold gymma_fn. intros [Hn | Hn]; rewrite Hn;
      [| destruct (kwargs !! "common_reward")]; reflexivity.
Qed.

End RegistryFacts.

(** * The self-test script *)

Lemma bind_raises_then {S A B} (c : Eff S A) (k : A -> Eff S B) :
  (forall a s, exists e s', k a s = (Raise e, s')) ->
  forall s, exists e s', bind c k s = (Raise e, s').
Proof.
  intros Hk s. unfold bind. destruct (c s) as [[a | e] s1]; [apply Hk |].
  eauto.
Qed.

Lemma bind_raises_first {S A B} (c : Eff S A) (k : A -> Eff S B) :
  (forall s, exists e s', c s = (Raise e, s')) ->
  forall s, exists e s', bind c k s = (Raise e, s').
Proof.
  intros Hc s. unfold bind. destruct (Hc s) as (e & s1 & ->). eauto.
Qed.

Section SelfTestFacts.
Context {F : Type} {FO : PyFloatOps F} {UB : UnityBackend F}.
Variable raw_draw : nat -> Z.
Variable format_3f : StepItem (F := F) -> result string.
Variable str_item : StepItem (F := F) -> string.
Variable item_truthy : StepItem (F := F) -> bool.

(** A tuple of five never unpacks into three names. *)
Lemma unpack3_step_tuple (r : StepReturn (F := F)) :
  unpack3 (step_tuple r) = Raise ValueError.
Proof. reflexivity. Qed.

Lemma test_loop_raises (k : nat) (rest : list nat) (env : UnityWarehouseEnv) :
  forall w, exists e w',
    test_loop raw_draw format_3f str_item item_truthy (k :: rest) env w
    = (Raise e, w').
Proof.
  cbn [test_loop]. apply bind_raises_then. intros actions.
  apply bind_raises_then. intros [r env'].
  apply bind_raises_first. intros s. unfold query.
  rewrite unpack3_step_tuple. eauto.
Qed.

(** Drawing the actions prints nothing and can only fail with numpy's
    [ValueError]. *)
Lemma draw_actions_outcome (n : nat) (high : Z) (w : TestWorld) :
  exists r w',
    eff_repeat n (np_random_randint raw_draw 0 high) w = (r, w')
    /\ tw_stdout w' = tw_stdout w
    /\ (r = Raise ValueError \/ exists actions, r = Ok actions).
Proof.
  revert w. induction n as [| n IH]; intros w.
  - cbn. eexists _, _. split; [reflexivity |]. split; [reflexivity | eauto].
  - cbn [eff_repeat]. unfold bind at 1, np_random_randint at 1.
    destruct (high <=? 0).
    + eexists _, _. split; [reflexivity |]. split; [reflexivity | auto].
    + cbv beta iota. unfold bind at 1.
      match goal with
      | |- context [eff_repeat n _ ?w1] =>
          destruct (IH w1) as (r & w' & Hrun & Hout & Hr)
      end.
      rewrite Hrun. cbn [tw_stdout] in Hout.
      destruct Hr as [-> | [actions ->]].
      * eexists _, _. split; [reflexivity |]. split; [exact Hout | auto].
      * eexists _, _. split; [reflexivity |]. split; [exact Hout | eauto].
Qed.

Lemma test_loop_value_error (k : nat) (rest : list nat)
    (env : UnityWarehouseEnv) (w : TestWorld) :
  (forall actions, is_ok (fst (step actions env)) = true) ->
  exists w',
    test_loop raw_draw format_3f str_item item_truthy (k :: rest) env w
    = (Raise ValueError, w')
    /\ tw_stdout w' = tw_stdout w.
Proof.
  intros Hstep. cbn [test_loop]. unfold bind at 1.
  destruct (draw_actions_outcome (n_agents env) (Z.of_nat (n_actions env)) w)
    as (r & w1 & -> & Hout & [-> | [actions ->]]).
  - eauto.
  - unfold bind at 1, on_local. specialize (Hstep actions).
    destruct (step actions env) as [[sr | e] env']; [| discriminate].
    unfold bind at 1, query. rewrite unpack3_step_tuple. eauto.
Qed.


End SelfTestFacts.

(** * Runs for the further properties *)

Lemma reachable_run {F : Type} {FO : PyFloatOps F} {UB : UnityBackend F}
    (ops : list AdapterOp) (self : UnityWarehouseEnv) :
  reachable self -> reachable (run ops self).
Proof.
  revert self. induction ops as [| op ops IH]; intros self Hr; [exact Hr |].
  cbn [run fold_left]. apply IH. apply reach_exec. exact Hr.
Qed.

Lemma reachable_env_done_late : reachable env_done_late.
Proof. apply reachable_run. exact reachable_env_done. Qed.

Lemma reachable_env_blind : reachable env_blind.
Proof.
  apply (reach_init PyNone (PyBool false) (PyFloat (20 # 1)) (PyInt 0) []
           env_blind
           ["Unity Warehouse Environment initialized:"; "  Agents: 4";
            "  Actions: 6"; "  Observation shape: 3"]).
  vm_compute. reflexivity.
Qed.

Lemma clock_invariant_witness :
  reachable env_done_late
  /\ 0 <= _episode_steps env_done_late <= _total_steps env_done_late
  /\ 0 <= _episode_count env_done_late
  /\ episode_limit env_done_late = 1000.
Proof.
  split; [exact reachable_env_done_late |].
  apply (clock_invariant env_done_late). exact reachable_env_done_late.
Defined.

Lemma cached_sizes_match_spec_witness :
  reachable env_done_tick
  /\ read_spec (spec env_done_tick)
     = Ok (n_actions env_done_tick, obs_shape env_done_tick)
  /\ (0 < n_agents env_done_tick)%nat.
Proof.
  assert (Hr : reachable env_done_tick)
    by (apply reach_exec; exact reachable_env_done).
  split; [exact Hr |].
  apply (cached_sizes_match_spec env_done_tick). exact Hr.
Defined.

Lemma step_returns_current_view_witness :
  exists r self',
    step [0; 1; 2; 3] env_done = (Ok r, self')
    /\ get_obs self' = Ok (sr_obs r)
    /\ episode_steps (sr_info r) = _episode_steps self'
    /\ total_steps (sr_info r) = _total_steps self'
    /\ get_env_info self' = get_env_info env_done.
Proof.
  eexists. eexists. split; [vm_compute; reflexivity |].
  apply (step_returns_current_view [0; 1; 2; 3] env_done).
  vm_compute. reflexivity.
Defined.

Lemma reset_returns_current_view_witness :
  exists obs st self',
    reset env_done_tick = (Ok (obs, st), self')
    /\ get_obs self' = Ok obs
    /\ get_state self' = Ok st
    /\ st = concat obs
    /\ obs <> [].
Proof.
  eexists. eexists. eexists. split; [vm_compute; reflexivity |].
  apply (reset_returns_current_view env_done_tick).
  vm_compute. reflexivity.
Defined.

Lemma step_raise_cases_witness :
  exists self',
    step [0; 1; 2; 3] env_blind = (Raise IndexError, self')
    /\ (((exists msg, IndexError = UnityException msg)
         /\ _episode_steps self' = _episode_steps env_blind
         /\ _total_steps self' = _total_steps env_blind)
        \/ (get_obs self' = Raise IndexError
            /\ _episode_steps self' = _episode_steps env_blind + 1
            /\ _total_steps self' = _total_steps env_blind + 1)).
Proof.
  eexists. split; [vm_compute; reflexivity |].
  apply (step_raise_cases [0; 1; 2; 3] env_blind).
  vm_compute. reflexivity.
Defined.

Lemma reset_raise_cases_witness :
  exists self',
    reset env_blind_tick = (Raise IndexError, self')
    /\ _episode_steps env_blind_tick = 1
    /\ _total_steps self' = _total_steps env_blind_tick
    /\ ((exists msg, IndexError = UnityException msg
                     /\ fst (env_reset (unity_env env_blind_tick)) = Some msg)
        /\ _episode_steps self' = _episode_steps env_blind_tick
        /\ _episode_count self' = _episode_count env_blind_tick
        \/ fst (env_reset (unity_env env_blind_tick)) = None
           /\ _episode_steps self' = 0
           /\ _episode_count self' = _episode_count env_blind_tick + 1).
Proof.
  eexists. split; [vm_compute; reflexivity |].
  split; [vm_compute; reflexivity |].
  apply (reset_raise_cases env_blind_tick).
  vm_compute. reflexivity.
Defined.

Lemma get_obs_agent_in_and_above_witness :
  get_obs env_done = Ok [[1; 0; 0]; [0; 1; 0]; [0; 0; 1]; [1; 1; 1]]
  /\ (exists v,
        [[1; 0; 0]; [0; 1; 0]; [0; 0; 1]; [1; 1; 1]] !! Z.to_nat 2 = Some v
        /\ get_obs_agent 2 env_done = Ok v)
  /\ get_obs_agent 4 env_done = Ok (replicate (obs_shape env_done) f_zero).
Proof.
  split; [vm_compute; reflexivity |].
  destruct (get_obs_agent_in_and_above env_done
              [[1; 0; 0]; [0; 1; 0]; [0; 0; 1]; [1; 1; 1]] 2)
    as [Hin _]; [vm_compute; reflexivity |].
  destruct (get_obs_agent_in_and_above env_done
              [[1; 0; 0]; [0; 1; 0]; [0; 0; 1]; [1; 1; 1]] 4)
    as [_ Habove]; [vm_compute; reflexivity |].
  split.
  - apply Hin. cbn. lia.
  - apply Habove. cbn. lia.
Defined.

Lemma get_obs_failures_witness :
  self_get_steps env_blind_tick = Ok frame_blind
  /\ get_obs env_blind_tick = Raise IndexError
  /\ get_state env_blind_tick = Raise IndexError
  /\ get_obs_agent 0 env_blind_tick = Raise IndexError.
Proof.
  split; [vm_compute; reflexivity |].
  destruct (get_obs_failures env_blind_tick) as [Hblind Hsame].
  assert (Hobs : get_obs env_blind_tick = Raise IndexError).
  { apply (Hblind (fst frame_blind) (snd frame_blind));
      vm_compute; [reflexivity | discriminate | reflexivity]. }
  split; [exact Hobs |].
  destruct (Hsame IndexError Hobs) as [Hst Hagent].
  split; [exact Hst | exact (Hagent 0)].
Defined.

Lemma empty_decision_set_zeros_witness :
  self_get_steps env_late = Ok frame_none
  /\ get_obs env_late = Ok [[0; 0; 0]; [0; 0; 0]; [0; 0; 0]; [0; 0; 0]]
  /\ get_state env_late = Ok [0; 0; 0; 0; 0; 0; 0; 0; 0; 0; 0; 0].
Proof.
  split; [vm_compute; reflexivity |].
  destruct (empty_decision_set_zeros env_late
              (fst frame_none) (snd frame_none)) as [Hobs Hstate];
    [vm_compute; reflexivity | vm_compute; reflexivity |].
  split; [exact Hobs | exact Hstate].
Defined.

Lemma falsy_env_path_is_none_witness :
  truthy (PyStr "") = false
  /\ UnityWarehouseEnv__init__
       (UB := scripted warehouse_behaviors script_done)
       (PyStr "") (PyBool true) (PyFloat (20 # 1)) (PyInt 0) []
     = UnityWarehouseEnv__init__
         (UB := scripted warehouse_behaviors script_done)
         PyNone (PyBool true) (PyFloat (20 # 1)) (PyInt 0) [].
Proof.
  split; [reflexivity |].
  apply (falsy_env_path_is_none
           (UB := scripted warehouse_behaviors script_done)).
  reflexivity.
Defined.

Lemma constructor_failures_witness :
  connect (UB := scripted continuous_behaviors script_late)
    PyNone (PyBool false) (PyFloat (20 # 1)) (PyInt 0) []
  = (Ok ([frame_none; frame_four], "WarehouseAgent?team=0", continuous_spec,
         no_decisions), [])
  /\ UnityWarehouseEnv__init__
       (UB := scripted continuous_behaviors script_late)
       PyNone (PyBool false) (PyFloat (20 # 1)) (PyInt 0) []
     = (Raise IndexError, [no_agents_warning]).
Proof.
  split; [vm_compute; reflexivity |].
  destruct (constructor_failures
              (UB := scripted continuous_behaviors script_late)
              PyNone (PyBool false) (PyFloat (20 # 1)) (PyInt 0) [])
    as [Hbranch _].
  apply (Hbranch [frame_none; frame_four] "WarehouseAgent?team=0"
           continuous_spec no_decisions);
    vm_compute; reflexivity.
Defined.

Lemma constructor_counts_agents_witness :
  exists self out',
    UnityWarehouseEnv__init__
      (UB := scripted warehouse_behaviors script_done)
      PyNone (PyBool false) (PyFloat (20 # 1)) (PyInt 0) []
    = (Ok self, out')
    /\ n_agents self = ds_len (fst frame_four)
    /\ unity_env self = [frame_four; frame_done]
    /\ (_episode_count self = 0 /\ _episode_steps self = 0
        /\ _total_steps self = 0)
    /\ out' = [] ++ ["Unity Warehouse Environment initialized:";
                     ("  Agents: " ++ str_of_nat (n_agents self))%string;
                     ("  Actions: " ++ str_of_nat (n_actions self))%string;
                     ("  Observation shape: "
                      ++ str_of_nat (obs_shape self))%string].
Proof.
  eexists. eexists. split; [vm_compute; reflexivity |].
  apply (constructor_counts_agents
           (UB := scripted warehouse_behaviors script_done)
           PyNone (PyBool false) (PyFloat (20 # 1)) (PyInt 0) [] _
           [frame_four; frame_done] "WarehouseAgent?team=0" warehouse_spec
           (fst frame_four));
    vm_compute; first [reflexivity | discriminate].
Defined.

Lemma facade_cache_agrees_witness :
  exists fac out',
    UnityWarehouse__init__ (UB := scripted warehouse_behaviors script_done)
      ∅ [] = (Ok fac, out')
    /\ fac_get_env_info (fac_run [FStep [0; 1; 2; 3]; FReset] fac)
       = get_env_info (env (fac_run [FStep [0; 1; 2; 3]; FReset] fac))
    /\ fac_n_agents (fac_run [FStep [0; 1; 2; 3]; FReset] fac) = 4%nat.
Proof.
  eexists. eexists. split; [vm_compute; reflexivity |].
  split; [| vm_compute; reflexivity].
  refine (proj1 (facade_cache_agrees
                   (UB := scripted warehouse_behaviors script_done)
                   ∅ [] _ _ [FStep [0; 1; 2; 3]; FReset] _)).
  vm_compute. reflexivity.
Defined.

Lemma smac_kwargs_check_witness :
  __check_and_prepare_smac_kwargs smac_args
  = Ok (delete "reward_scalarisation" (delete "common_reward" smac_args))
  /\ (delete "reward_scalarisation" (delete "common_reward" smac_args))
       !! "map_name" = smac_args !! "map_name".
Proof.
  destruct (smac_kwargs_check smac_args) as (Hiff & Hkeep & _).
  assert (Hok : __check_and_prepare_smac_kwargs smac_args
                = Ok (delete "reward_scalarisation"
                        (delete "common_reward" smac_args))).
  { apply Hiff. split; [exists (PyBool true); split; reflexivity |].
    split; [exists (PyStr "sum"); reflexivity |].
    split; [exists (PyStr "3m"); reflexivity | reflexivity]. }
  split; [exact Hok |].
  destruct (Hkeep _ Hok) as (_ & _ & Hother).
  apply Hother; discriminate.
Defined.

Lemma smac_kwargs_check_twice_witness :
  exists kwargs',
    __check_and_prepare_smac_kwargs smac_args = Ok kwargs'
    /\ __check_and_prepare_smac_kwargs kwargs' = Raise (AssertionError "").
Proof.
  eexists. split; [vm_compute; reflexivity |].
  apply (smac_kwargs_check_twice smac_args). vm_compute. reflexivity.
Defined.

Lemma registry_entries_witness :
  REGISTRY id None (Some demo_wrapper) !! "unity_warehouse"
  = Some (unity_warehouse_entry id)
  /\ REGISTRY id None (Some demo_wrapper) !! "smaclite" = None
  /\ register_smac demo_wrapper (REGISTRY id None (Some demo_wrapper))
       !! "unity_warehouse"
     = REGISTRY id None (Some demo_wrapper) !! "unity_warehouse".
Proof.
  destruct (registry_entries id None (Some demo_wrapper) demo_wrapper
              demo_wrapper (REGISTRY id None (Some demo_wrapper)))
    as (Hunity & Hlite & _ & _ & _ & _ & _ & Hkeep & _).
  split; [exact Hunity |]. split; [exact Hlite |].
  apply Hkeep. discriminate.
Defined.

Lemma registry_constructors_validate_witness :
  __check_and_prepare_smac_kwargs (∅ : gmap string PyVal)
  = Raise (AssertionError "")
  /\ smaclite_fn demo_wrapper ∅ [] = (Raise (AssertionError ""), [])
  /\ gymma_fn demo_wrapper ∅ [] = (Raise (AssertionError ""), [])
  /\ gymma_fn demo_wrapper smac_args [] = demo_wrapper smac_args [].
Proof.
  destruct (registry_constructors_validate demo_wrapper ∅ [])
    as (_ & Hraise & _ & Hmissing).
  destruct (registry_constructors_validate demo_wrapper smac_args [])
    as (_ & _ & Hpresent & _).
  split; [vm_compute; reflexivity |].
  split; [apply Hraise; vm_compute; reflexivity |].
  split; [apply Hmissing; left; vm_compute; reflexivity |].
  apply Hpresent; [exists (PyBool true) | exists (PyStr "sum")];
    vm_compute; reflexivity.
Defined.


(** * Counting steps *)

Section Counting.
Context {F : Type} {FO : PyFloatOps F} {UB : UnityBackend F}.

Lemma steps_return_counters (batches : list (list Z))
    (self : UnityWarehouseEnv) :
  steps_return batches self = true ->
  _episode_steps (run (map OpStep batches) self)
  = _episode_steps self + Z.of_nat (length batches)
  /\ _total_steps (run (map OpStep batches) self)
     = _total_steps self + Z.of_nat (length batches)
  /\ _episode_count (run (map OpStep batches) self) = _episode_count self.
Proof.
  revert self. induction batches as [| actions rest IH]; intros self Hall.
  - cbn. repeat split; lia.
  - cbn [steps_return] in Hall. apply andb_true_iff in Hall as [Hok Hrest].
    cbn [map run fold_left exec].
    fold (run (map OpStep rest) (snd (step actions self))).
    destruct (IH _ Hrest) as (-> & -> & ->).
    destruct (step actions self) as [[r | e] self'] eqn:Hstep;
      [| discriminate].
    destruct (step_returns _ _ _ _ Hstep)
      as (u1 & u2 & ds & ts & obs & _ & _ & _ & -> & _ & _).
    cbn [snd length]. cbn. repeat split; lia.
Qed.

(** X22. A run of [n] calls to [step] that all return adds exactly [n]
    to [episode_steps] and to [total_steps] and leaves the episode
    counter alone; straight after a [reset] that returned,
    [episode_steps] is therefore the number of steps taken since. *)
Theorem steps_are_counted (batches : list (list Z))
    (self : UnityWarehouseEnv) :
  (steps_return batches self = true ->
   _episode_steps (run (map OpStep batches) self)
   = _episode_steps self + Z.of_nat (length batches)
   /\ _total_steps (run (map OpStep batches) self)
      = _total_steps self + Z.of_nat (length batches)
   /\ _episode_count (run (map OpStep batches) self) = _episode_count self)
  /\ (forall first self1,
        reset self = (Ok first, self1) ->
        steps_return batches self1 = true ->
        _episode_steps (run (map OpStep batches) self1)
        = Z.of_nat (length batches)
        /\ _total_steps (run (map OpStep batches) self1)
           = _total_steps self + Z.of_nat (length batches)).
Proof.
  split; [apply steps_return_counters |].
  intros first self1 Hreset Hall.
  destruct (steps_return_counters batches self1 Hall) as (He & Ht & _).
  rewrite He, Ht.
  assert (Hr : _episode_steps self1 = 0 /\ _total_steps self1 = _total_steps self).
  { revert Hreset. unfold reset. eff_cases; intros Heq;
      inversion Heq; subst; cbn; auto. }
  destruct Hr as [-> ->]. split; lia.
Qed.

End Counting.

Lemma steps_are_counted_witness :
  steps_return [[0; 1; 2; 3]; [0; 0; 0; 0]; [1; 1; 1; 1]] env_done_tick = true
  /\ _episode_steps env_done_tick = 1
  /\ _episode_steps
       (run (map OpStep [[0; 1; 2; 3]; [0; 0; 0; 0]; [1; 1; 1; 1]])
          env_done_tick)
     = 1 + 3
  /\ _total_steps
       (run (map OpStep [[0; 1; 2; 3]; [0; 0; 0; 0]; [1; 1; 1; 1]])
          env_done_tick)
     = 1 + 3.
Proof.
  split; [vm_compute; reflexivity |].
  split; [vm_compute; reflexivity |].
  destruct (steps_are_counted
              [[0; 1; 2; 3]; [0; 0; 0; 0]; [1; 1; 1; 1]] env_done_tick)
    as [Hcount _].
  destruct Hcount as (He & Ht & _); [vm_compute; reflexivity |].
  split; [exact He | exact Ht].
Defined.

(** * Start-up without agents *)

Lemma py_index_first {A} (l : list A) :
  py_index l 0 = match l with [] => Raise IndexError | x :: _ => Ok x end.
Proof. destruct l as [| x l]; [reflexivity | apply py_index_head]. Qed.

(** When the constructor can read the two sizes off a behaviour spec. *)
Lemma read_spec_readable (bspec : BehaviorSpec) :
  is_ok (read_spec bspec) = true <->
  discrete_branches (action_spec bspec) <> []
  /\ (forall o os, observation_specs bspec = o :: os -> shape o <> []).
Proof.
  unfold read_spec. rewrite py_index_first.
  destruct (discrete_branches (action_spec bspec)) as [| nact branches];
    cbn [rbind is_ok].
  { split; [discriminate | intros [H _]; contradiction]. }
  destruct (observation_specs bspec) as [| o os]; cbn [length Nat.ltb Nat.leb].
  { cbn. split; [| reflexivity]. intros _. split; [discriminate |].
    intros o os H. discriminate. }
  rewrite py_index_first. cbn [rbind]. rewrite py_index_first.
  destruct (shape o) as [| d dims] eqn:Hshape; cbn [rbind is_ok].
  - split; [discriminate |]. intros [_ H].
    exfalso. apply (H o os eq_refl). exact Hshape.
  - split; [| reflexivity]. intros _. split; [discriminate |].
    intros o' os' Heq. injection Heq as <- <-. rewrite Hshape. discriminate.
Qed.

Section StartUp.
Context {F : Type} {FO : PyFloatOps F} {UB : UnityBackend F}.

(** C8, as the code has it. When the decision set read after the
    forced first tick holds no agent, the fallback itself raises
    nothing: it prints the warning and takes 4 as [n_agents]. The
    constructor then returns, with [n_agents = 4] and the warning
    printed before its report, exactly when the behaviour spec has a
    first discrete action branch and its first observation spec, if
    there is one, has a first dimension; otherwise it raises
    [IndexError] after the warning. *)
Theorem zero_agents_fallback env_path no_graphics time_scale worker_id
    (out : Stdout) u name bspec (ds : DecisionSteps F) :
  connect env_path no_graphics time_scale worker_id out
  = (Ok (u, name, bspec, ds), out) ->
  ds_len ds = 0%nat ->
  count_agents ds out = (Ok 4%nat, out ++ [no_agents_warning])
  /\ UnityWarehouseEnv__init__ env_path no_graphics time_scale worker_id out
     = match read_spec bspec with
       | Ok (nact, oshape) =>
           (Ok {| unity_env := u; behavior_name := name; spec := bspec;
                  n_agents := 4; n_actions := nact; obs_shape := oshape;
                  episode_limit := 1000; _episode_count := 0;
                  _episode_steps := 0; _total_steps := 0 |},
            out ++ [no_agents_warning;
                    "Unity Warehouse Environment initialized:";
                    ("  Agents: " ++ str_of_nat 4)%string;
                    ("  Actions: " ++ str_of_nat nact)%string;
                    ("  Observation shape: " ++ str_of_nat oshape)%string])
       | Raise _ => (Raise IndexError, out ++ [no_agents_warning])
       end
  /\ (is_ok (read_spec bspec) = true <->
      discrete_branches (action_spec bspec) <> []
      /\ (forall o os, observation_specs bspec = o :: os -> shape o <> [])).
Proof.
  intros Hc Hz. split; [| split; [| apply read_spec_readable]].
  - rewrite count_agents_run, Hz. reflexivity.
  - destruct (read_spec bspec) as [[nact oshape] | e] eqn:Hs.
    + pose proof (init_run _ _ _ _ _ _ _ _ _ _ _ Hc Hs) as Hinit.
      cbv zeta in Hinit. rewrite Hz in Hinit. cbn [Nat.eqb] in Hinit.
      rewrite Hinit. rewrite <- app_assoc. reflexivity.
    + pose proof (read_spec_raises _ _ Hs) as ->.
      unfold UnityWarehouseEnv__init__, bind at 1. rewrite Hc.
      unfold bind at 1. rewrite count_agents_run, Hz. cbn [Nat.eqb].
      unfold bind, query. rewrite Hs. reflexivity.
Qed.

End StartUp.

(** C8 fails as stated: no agent after the first tick, a behaviour
    with continuous actions only, and the constructor raises
    [IndexError] once the warning is printed. *)
Lemma zero_agents_counterexample :
  connect (UB := scripted continuous_behaviors script_late)
    PyNone (PyBool false) (PyFloat (20 # 1)) (PyInt 0) []
  = (Ok ([frame_none; frame_four], "WarehouseAgent?team=0", continuous_spec,
         no_decisions), [])
  /\ ds_len no_decisions = 0%nat
  /\ UnityWarehouseEnv__init__
       (UB := scripted continuous_behaviors script_late)
       PyNone (PyBool false) (PyFloat (20 # 1)) (PyInt 0) []
     = (Raise IndexError, [no_agents_warning]).
Proof. repeat split; vm_compute; reflexivity. Qed.

Lemma zero_agents_fallback_witness :
  connect (UB := scripted warehouse_behaviors script_late)
    PyNone (PyBool false) (PyFloat (20 # 1)) (PyInt 0) []
  = (Ok ([frame_none; frame_four], "WarehouseAgent?team=0", warehouse_spec,
         no_decisions), [])
  /\ ds_len no_decisions = 0%nat
  /\ count_agents no_decisions [] = (Ok 4%nat, [] ++ [no_agents_warning])
  /\ UnityWarehouseEnv__init__
       (UB := scripted warehouse_behaviors script_late)
       PyNone (PyBool false) (PyFloat (20 # 1)) (PyInt 0) []
     = (Ok env_late,
        [no_agents_warning; "Unity Warehouse Environment initialized:";
         "  Agents: 4"; "  Actions: 6"; "  Observation shape: 3"])
  /\ n_agents env_late = 4%nat.
Proof.
  split; [vm_compute; reflexivity |].
  split; [reflexivity |].
  destruct (zero_agents_fallback
              (UB := scripted warehouse_behaviors script_late)
              PyNone (PyBool false) (PyFloat (20 # 1)) (PyInt 0) []
              [frame_none; frame_four] "WarehouseAgent?team=0" warehouse_spec
              no_decisions)
    as (Hcount & Hinit & _); [vm_compute; reflexivity | reflexivity |].
  split; [exact Hcount |]. split; [exact Hinit | reflexivity].
Defined.

(** * Truncation over time *)

Section Truncation.
Context {F : Type} {FO : PyFloatOps F} {UB : UnityBackend F}.

Lemma step_truncated_iff
    (actions : list Z) (self self' : UnityWarehouseEnv) (r : StepReturn) :
  reachable self ->
  step actions self = (Ok r, self') ->
  (sr_truncated r = true <->
   999 <= _episode_steps self /\ sr_terminated r = false).
Proof.
  intros Hreach Hstep.
  destruct (reachable_clock self Hreach) as (_ & _ & Hlim).
  destruct (step_returns _ _ _ _ Hstep)
    as (u1 & u2 & ds & ts & obs & _ & _ & _ & _ & _ & ->).
  cbn [sr_truncated sr_terminated]. rewrite Hlim.
  rewrite andb_true_iff, negb_true_iff, Z.leb_le. split; intros [H1 H2];
    (split; [lia | exact H2]).
Qed.

(** Only [reset] can lower [episode_steps]. *)
Lemma exec_keeps_episode_steps (op : AdapterOp) (self : UnityWarehouseEnv) :
  op <> OpReset -> _episode_steps self <= _episode_steps (exec op self).
Proof.
  intros Hne. destruct op; cbn [exec]; try (cbn; lia).
  - contradiction.
  - destruct (step_counters actions self) as (_ & [[He _] | [He _]]); lia.
  - destruct (close_counters self) as (He & _). lia.
Qed.

Lemma run_keeps_episode_steps (ops : list AdapterOp)
    (self : UnityWarehouseEnv) :
  Forall (fun op => op <> OpReset) ops ->
  _episode_steps self <= _episode_steps (run ops self).
Proof.
  intros Hall. revert self.
  induction Hall as [| op ops Hop _ IH]; intros self; [cbn; lia |].
  cbn [run fold_left]. fold (run ops (exec op self)).
  pose proof (exec_keeps_episode_steps op self Hop).
  specialize (IH (exec op self)). lia.
Qed.

(** X15. On every adapter a program can hold, a [step] that returns
    reports [truncated] exactly when [episode_steps] was already at
    least 999 before the call and no agent became terminal. No call
    other than [reset] lowers [episode_steps]; so once it has reached
    999, after any further calls that are not a [reset], every [step]
    that returns reports [truncated] unless an agent became terminal. *)
Theorem truncation_threshold (self : UnityWarehouseEnv) :
  reachable self ->
  (forall actions r self',
     step actions self = (Ok r, self') ->
     (sr_truncated r = true <->
      999 <= _episode_steps self /\ sr_terminated r = false))
  /\ (forall op, op <> OpReset ->
        _episode_steps self <= _episode_steps (exec op self))
  /\ (forall ops actions r self',
        Forall (fun op => op <> OpReset) ops ->
        999 <= _episode_steps self ->
        step actions (run ops self) = (Ok r, self') ->
        sr_truncated r = negb (sr_terminated r)).
Proof.
  intros Hreach. split; [| split].
  - intros actions r self' Hstep.
    exact (step_truncated_iff actions self self' r Hreach Hstep).
  - intros op. apply exec_keeps_episode_steps.
  - intros ops actions r self' Hall Hlate Hstep.
    pose proof (run_keeps_episode_steps ops self Hall) as Hkeep.
    pose proof (step_truncated_iff actions (run ops self) self' r
                  (reachable_run ops self Hreach) Hstep) as Hiff.
    destruct (sr_terminated r); cbn [negb].
    + destruct (sr_truncated r); [| reflexivity].
      destruct (proj1 Hiff eq_refl) as [_ Hcontra]. discriminate.
    + apply Hiff. split; [lia | reflexivity].
Qed.

End Truncation.

Lemma truncation_threshold_witness :
  reachable env_done_late
  /\ _episode_steps env_done_late = 999
  /\ exists r self',
      step [0; 0; 0; 0] env_done_late = (Ok r, self')
      /\ sr_terminated r = false
      /\ sr_truncated r = true
      /\ exists r2 self2,
          step [1; 1; 1; 1]
            (run [OpStep [0; 0; 0; 0]; OpGetObs; OpClose] env_done_late)
          = (Ok r2, self2)
          /\ sr_truncated r2 = negb (sr_terminated r2).
Proof.
  split; [exact reachable_env_done_late |].
  split; [vm_compute; reflexivity |].
  destruct (truncation_threshold env_done_late reachable_env_done_late)
    as (Hiff & _ & Hlater).
  eexists. eexists. split; [vm_compute; reflexivity |].
  split; [vm_compute; reflexivity |].
  split.
  { refine (proj2 (Hiff [0; 0; 0; 0] _ _ _) _).
    - vm_compute. reflexivity.
    - split; vm_compute; [discriminate | reflexivity]. }
  eexists. eexists. split; [vm_compute; reflexivity |].
  refine (Hlater [OpStep [0; 0; 0; 0]; OpGetObs; OpClose] [1; 1; 1; 1]
            _ _ _ _ _).
  - repeat constructor; discriminate.
  - vm_compute. discriminate.
  - vm_compute. reflexivity.
Defined.
